(** * The install command driver of pip ([pip/commands/install.py])

    A shallow embedding of [InstallCommand.run]: the option object the
    command mutates, the collaborators it calls (the requirement set, the
    requirement constructors, the file system helpers) and the order in which
    it calls them.

    The collaborators are code outside this module.  They are taken as an
    [Environment] over an abstract world [W]: each call may change the world
    and may raise.  [run] itself is a computation in a small monad that
    threads the option object and the world, stops at the first exception and
    records the calls it makes, in order. *)

From Stdlib Require Import String List Bool Arith Lia Ascii.
Import ListNotations.
Open Scope string_scope.
Open Scope list_scope.

(** String concatenation, written apart from the append of lists. *)
Infix "+++" := String.append (right associativity, at level 60).

(** ** Python values *)

(** An exception: its class and its message. *)
Record exn := mk_exn { exn_class : string; exn_msg : string }.

Definition InstallationError (msg : string) : exn := mk_exn "InstallationError" msg.
Definition CommandError (msg : string) : exn := mk_exn "CommandError" msg.
Definition UnboundLocalError (msg : string) : exn := mk_exn "UnboundLocalError" msg.

(** Truth value of a string, of [None]-or-string and of [None]-or-list. *)
Definition str_truthy (s : string) : bool :=
  match s with EmptyString => false | String _ _ => true end.

Definition truthy (o : option string) : bool :=
  match o with Some s => str_truthy s | None => false end.

Definition list_truthy {A : Type} (l : list A) : bool :=
  match l with [] => false | _ :: _ => true end.

(** [x or []] for an option that is [None] or a list. *)
Definition or_empty (o : option (list string)) : list string :=
  match o with Some l => l | None => [] end.

Definition opt_list_truthy (o : option (list string)) : bool :=
  list_truthy (or_empty o).

(** The double quote character, used inside two messages. *)
Definition dq : string := String (ascii_of_nat 34) EmptyString.

(** ** The data of the command *)

(** The parsed options, the fields [run] reads or writes. *)
Record Options := mk_options {
  download_dir : option string;
  no_install : bool;
  ignore_installed : bool;
  build_dir : string;
  src_dir : string;
  install_options : option (list string);
  use_user_site : bool;
  target_dir : option string;
  global_options : option (list string);
  index_url : string;
  extra_index_urls : list string;
  no_index : bool;
  find_links : list string;
  use_mirrors : bool;
  mirrors : list string;
  download_cache : option string;
  upgrade : bool;
  as_egg : bool;
  ignore_dependencies : bool;
  force_reinstall : bool;
  editables : list string;
  default_vcs : string;
  requirements : list string;
  no_download : bool;
  root_path : option string
}.

Definition set_no_install (b : bool) (o : Options) : Options :=
  mk_options (download_dir o) b (ignore_installed o) (build_dir o) (src_dir o)
    (install_options o) (use_user_site o) (target_dir o) (global_options o)
    (index_url o) (extra_index_urls o) (no_index o) (find_links o)
    (use_mirrors o) (mirrors o) (download_cache o) (upgrade o) (as_egg o)
    (ignore_dependencies o) (force_reinstall o) (editables o) (default_vcs o)
    (requirements o) (no_download o) (root_path o).

Definition set_ignore_installed (b : bool) (o : Options) : Options :=
  mk_options (download_dir o) (no_install o) b (build_dir o) (src_dir o)
    (install_options o) (use_user_site o) (target_dir o) (global_options o)
    (index_url o) (extra_index_urls o) (no_index o) (find_links o)
    (use_mirrors o) (mirrors o) (download_cache o) (upgrade o) (as_egg o)
    (ignore_dependencies o) (force_reinstall o) (editables o) (default_vcs o)
    (requirements o) (no_download o) (root_path o).

Definition set_build_dir (d : string) (o : Options) : Options :=
  mk_options (download_dir o) (no_install o) (ignore_installed o) d (src_dir o)
    (install_options o) (use_user_site o) (target_dir o) (global_options o)
    (index_url o) (extra_index_urls o) (no_index o) (find_links o)
    (use_mirrors o) (mirrors o) (download_cache o) (upgrade o) (as_egg o)
    (ignore_dependencies o) (force_reinstall o) (editables o) (default_vcs o)
    (requirements o) (no_download o) (root_path o).

Definition set_src_dir (d : string) (o : Options) : Options :=
  mk_options (download_dir o) (no_install o) (ignore_installed o) (build_dir o) d
    (install_options o) (use_user_site o) (target_dir o) (global_options o)
    (index_url o) (extra_index_urls o) (no_index o) (find_links o)
    (use_mirrors o) (mirrors o) (download_cache o) (upgrade o) (as_egg o)
    (ignore_dependencies o) (force_reinstall o) (editables o) (default_vcs o)
    (requirements o) (no_download o) (root_path o).

Definition set_install_options (l : option (list string)) (o : Options) : Options :=
  mk_options (download_dir o) (no_install o) (ignore_installed o) (build_dir o)
    (src_dir o) l (use_user_site o) (target_dir o) (global_options o)
    (index_url o) (extra_index_urls o) (no_index o) (find_links o)
    (use_mirrors o) (mirrors o) (download_cache o) (upgrade o) (as_egg o)
    (ignore_dependencies o) (force_reinstall o) (editables o) (default_vcs o)
    (requirements o) (no_download o) (root_path o).

Definition set_target_dir (d : option string) (o : Options) : Options :=
  mk_options (download_dir o) (no_install o) (ignore_installed o) (build_dir o)
    (src_dir o) (install_options o) (use_user_site o) d (global_options o)
    (index_url o) (extra_index_urls o) (no_index o) (find_links o)
    (use_mirrors o) (mirrors o) (download_cache o) (upgrade o) (as_egg o)
    (ignore_dependencies o) (force_reinstall o) (editables o) (default_vcs o)
    (requirements o) (no_download o) (root_path o).

(** The attributes of the command object [self] that [run] reads. *)
Record Command := mk_command {
  name : string;
  bundle : bool;
  bundle_filename : string
}.

(** A requirement as [run] sees it. *)
Record Requirement := mk_requirement {
  req_name : string;
  req_editable : bool
}.

(** The keyword arguments of [PackageFinder(...)]. *)
Record PackageFinder := mk_finder {
  pf_find_links : list string;
  pf_index_urls : list string;
  pf_use_mirrors : bool;
  pf_mirrors : list string
}.

(** The keyword arguments of [RequirementSet(...)]. *)
Record RequirementSetArgs := mk_rsargs {
  rs_build_dir : string;
  rs_src_dir : string;
  rs_download_dir : option string;
  rs_download_cache : option string;
  rs_upgrade : bool;
  rs_as_egg : bool;
  rs_ignore_installed : bool;
  rs_ignore_dependencies : bool;
  rs_force_reinstall : bool;
  rs_use_user_site : bool
}.

(** The local variables of [run] that outlive the first part of its body. *)
Record Plan := mk_plan {
  plan_install_options : list string;
  plan_temp_target_dir : option string;
  plan_global_options : list string;
  plan_index_urls : list string
}.

(** What [run] returns: [None] on the early return, the requirement set
    otherwise. *)
Inductive retval := RetNone | RetRequirementSet.

(** ** Calls made by [run], as recorded in the trace *)

Inductive event :=
| EvNotify (msg : string)
| EvWarn (msg : string)
| EvMkdtemp
| EvNewRequirementSet (a : RequirementSetArgs)
| EvFromLine (line : string)
| EvFromEditable (url vcs : string)
| EvParseRequirements (filename : string)
| EvAddRequirement (r : Requirement)
| EvPrepareFiles (finder : PackageFinder) (force_root_egg_info bundle_flag : bool)
| EvLocateFiles
| EvInstall (install_opts global_opts : list string) (root : option string)
| EvCreateBundle (filename : string)
| EvCleanupFiles (bundle_flag : bool)
| EvMakedirs (path : string)
| EvListdir (path : string)
| EvMove (src dst : string)
| EvRmtree (path : string).

Definition is_warn (e : event) : bool :=
  match e with EvWarn _ => true | _ => false end.
Definition is_mkdtemp (e : event) : bool :=
  match e with EvMkdtemp => true | _ => false end.
Definition is_prepare (e : event) : bool :=
  match e with EvPrepareFiles _ _ _ => true | _ => false end.
Definition is_locate (e : event) : bool :=
  match e with EvLocateFiles => true | _ => false end.
Definition is_acquire (e : event) : bool := is_prepare e || is_locate e.
Definition is_install (e : event) : bool :=
  match e with EvInstall _ _ _ => true | _ => false end.
Definition is_cleanup (e : event) : bool :=
  match e with EvCleanupFiles _ => true | _ => false end.
Definition is_rmtree (e : event) : bool :=
  match e with EvRmtree _ => true | _ => false end.
Definition is_relocate (e : event) : bool :=
  match e with
  | EvMakedirs _ | EvListdir _ | EvMove _ _ | EvRmtree _ => true
  | _ => false
  end.

(** Calls of the requirement collector: the construction of the set, the
    three requirement sources and [add_requirement]. *)
Definition is_collect (e : event) : bool :=
  match e with
  | EvNewRequirementSet _ | EvFromLine _ | EvFromEditable _ _
  | EvParseRequirements _ | EvAddRequirement _ => true
  | _ => false
  end.

(** What the first part of [run] may call: the logger's [notify] and
    [tempfile.mkdtemp]. *)
Definition is_normalize (e : event) : bool :=
  match e with EvNotify _ | EvMkdtemp => true | _ => false end.

(** Calls from the acquisition step on. *)
Definition is_late (e : event) : bool :=
  match e with
  | EvPrepareFiles _ _ _ | EvLocateFiles | EvInstall _ _ _ | EvCreateBundle _
  | EvCleanupFiles _ | EvMakedirs _ | EvListdir _ | EvMove _ _ | EvRmtree _
  | EvNotify _ => true
  | _ => false
  end.

(** What the outcome modes may call. *)
Definition is_mode (e : event) : bool :=
  match e with EvInstall _ _ _ | EvCreateBundle _ | EvNotify _ => true | _ => false end.

(** The requirement sources and [add_requirement]. *)
Definition is_source (e : event) : bool :=
  match e with
  | EvFromLine _ | EvFromEditable _ _ | EvParseRequirements _
  | EvAddRequirement _ => true
  | _ => false
  end.

Definition is_new_requirement_set (e : event) : bool :=
  match e with EvNewRequirementSet _ => true | _ => false end.

(** What [run] may call up to the end of the requirement collection, and up
    to the acquisition step. *)
Definition is_gather (e : event) : bool := is_normalize e || is_collect e.

Definition is_early (e : event) : bool := is_gather e || is_warn e.

(** What [run] may call after the outcome mode. *)
Definition is_post_mode (e : event) : bool := is_cleanup e || is_relocate e.

(** The calls of the relocation before the final [rmtree]. *)
Definition is_relocate_entry (e : event) : bool :=
  match e with EvMakedirs _ | EvListdir _ | EvMove _ _ => true | _ => false end.

(** What [run] may call after the acquisition step. *)
Definition is_post_acquire (e : event) : bool := is_mode e || is_post_mode e.

Definition is_notify (e : event) : bool :=
  match e with EvNotify _ => true | _ => false end.

Definition no_event (e : event) : bool := false.

Definition count (p : event -> bool) (t : list event) : nat :=
  length (filter p t).

(** ** The collaborators *)

(** A call into a collaborator: it may raise, and it may change the world. *)
Definition ext (W A : Type) : Type := W -> (exn + A) * W.

Record Environment (W : Type) := mk_env {
  (* os.path, os, tempfile, shutil *)
  abspath : W -> string -> string;
  path_exists : W -> string -> bool;
  path_isdir : W -> string -> bool;
  path_join : string -> string -> string;
  mkdtemp : ext W string;
  makedirs : string -> ext W unit;
  listdir : string -> ext W (list string);
  move : string -> string -> ext W unit;
  rmtree : string -> ext W unit;
  (* sys.version_info (major, minor), pip.locations, pip.backwardcompat *)
  version_info : nat * nat;
  virtualenv_no_global : W -> bool;
  home_lib : string -> string;
  (* import setuptools; the truth value of its _distribute attribute *)
  import_setuptools : ext W bool;
  (* pip.req *)
  from_line : string -> ext W Requirement;
  from_editable : string -> string -> ext W Requirement;
  (* a generator: the requirements it yields, then the exception that ends
     it, if any; it is handed the finder and the options object, here by
     value: what it might write to either is not represented *)
  parse_requirements :
    string -> PackageFinder -> Options -> W -> (list Requirement * option exn) * W;
  new_requirement_set : RequirementSetArgs -> W -> W;
  add_requirement : Requirement -> ext W unit;
  has_requirements : W -> bool;
  has_editables : W -> bool;
  prepare_files : PackageFinder -> bool -> bool -> ext W unit;
  locate_files : ext W unit;
  install : list string -> list string -> option string -> ext W unit;
  successfully_installed : W -> list Requirement;
  successfully_downloaded : W -> list Requirement;
  create_bundle : string -> ext W unit;
  cleanup_files : bool -> ext W unit
}.

Arguments abspath {W}. Arguments path_exists {W}. Arguments path_isdir {W}.
Arguments path_join {W}. Arguments mkdtemp {W}. Arguments makedirs {W}.
Arguments listdir {W}. Arguments move {W}. Arguments rmtree {W}.
Arguments version_info {W}. Arguments virtualenv_no_global {W}.
Arguments home_lib {W}. Arguments import_setuptools {W}.
Arguments from_line {W}. Arguments from_editable {W}.
Arguments parse_requirements {W}. Arguments new_requirement_set {W}.
Arguments add_requirement {W}. Arguments has_requirements {W}.
Arguments has_editables {W}. Arguments prepare_files {W}.
Arguments locate_files {W}. Arguments install {W}.
Arguments successfully_installed {W}. Arguments successfully_downloaded {W}.
Arguments create_bundle {W}. Arguments cleanup_files {W}.

(** [sys.version_info < (maj, min)]: tuples compare lexicographically, and a
    longer tuple with an equal prefix is the greater one. *)
Definition version_lt (v : nat * nat) (maj min : nat) : bool :=
  Nat.ltb (fst v) maj || (Nat.eqb (fst v) maj && Nat.ltb (snd v) min).

(** ** The monad of [run] *)

Inductive result (A : Type) :=
| Ok (a : A)
| Raise (e : exn).
Arguments Ok {A}. Arguments Raise {A}.

Record State (W : Type) := mk_state { st_options : Options; st_world : W }.
Arguments mk_state {W}. Arguments st_options {W}. Arguments st_world {W}.

Definition M (W A : Type) : Type := State W -> result A * State W * list event.

Definition ret {W A : Type} (a : A) : M W A := fun s => (Ok a, s, []).

Definition raise {W A : Type} (e : exn) : M W A := fun s => (Raise e, s, []).

Definition bind {W A B : Type} (m : M W A) (k : A -> M W B) : M W B :=
  fun s =>
    match m s with
    | (Ok a, s1, t1) =>
        match k a s1 with
        | (r, s2, t2) => (r, s2, t1 ++ t2)
        end
    | (Raise e, s1, t1) => (Raise e, s1, t1)
    end.

Declare Scope run_scope.
Delimit Scope run_scope with run.
Notation "x <- m ;; k" := (bind m (fun x => k))
  (at level 100, m at next level, right associativity) : run_scope.
Notation "m ;; k" := (bind m (fun _ => k))
  (at level 100, right associativity) : run_scope.
Open Scope run_scope.

Definition emit {W : Type} (e : event) : M W unit := fun s => (Ok tt, s, [e]).

Definition options {W : Type} : M W Options := fun s => (Ok (st_options s), s, []).

Definition set_options {W : Type} (f : Options -> Options) : M W unit :=
  fun s => (Ok tt, mk_state (f (st_options s)) (st_world s), []).

Definition query {W A : Type} (q : W -> A) : M W A :=
  fun s => (Ok (q (st_world s)), s, []).

(** A collaborator call that is not recorded. *)
Definition call_silent {W A : Type} (op : ext W A) : M W A :=
  fun s =>
    match op (st_world s) with
    | (inr a, w) => (Ok a, mk_state (st_options s) w, [])
    | (inl e, w) => (Raise e, mk_state (st_options s) w, [])
    end.

(** A recorded collaborator call: the event is recorded whether the call
    returns or raises. *)
Definition call {W A : Type} (e : event) (op : ext W A) : M W A :=
  emit e ;; call_silent op.

Definition when_ {W : Type} (b : bool) (m : M W unit) : M W unit :=
  if b then m else ret tt.

(** [for x in l: body(x)] *)
Fixpoint for_each {W A : Type} (l : list A) (body : A -> M W unit) : M W unit :=
  match l with
  | [] => ret tt
  | x :: l' => body x ;; for_each l' body
  end.

(** [emits P m]: every call recorded by [m] satisfies [P]. *)
Definition emits {W A : Type} (P : event -> bool) (m : M W A) : Prop :=
  forall s, forallb P (snd (m s)) = true.

(** [preserves I m]: [m] maintains the property [I] of the options object,
    whether it returns or raises. *)
Definition preserves {W A : Type} (I : Options -> Prop) (m : M W A) : Prop :=
  forall s, I (st_options s) -> I (st_options (snd (fst (m s)))).

(** The outcome of a computation that starts after the calls [t0]. *)
Definition after {W A : Type} (t0 : list event)
    (x : result A * State W * list event) : result A * State W * list event :=
  (fst (fst x), snd (fst x), t0 ++ snd x).

(** ** [InstallCommand.run] *)

Section Run.

Context {W : Type}.
Variable env : Environment W.
Variable self : Command.

(** [install_options.append(x)]: the local list grows; when it is the very
    list of the options object ([options.install_options or []] returned the
    left operand), the options object sees the new element too. *)
Definition append_install_option (aliased : bool) (x : string)
    (l : list string) : M W (list string) :=
  let l' := l ++ [x] in
  when_ aliased (set_options (set_install_options (Some l'))) ;;
  ret l'.

Definition user_site_msg : string :=
  "Can not perform a '--user' install. User site-packages are not visible in this virtualenv.".

Definition target_msg : string :=
  "Target path exists but is not a directory, will not continue.".

(** Lines 197-199. *)
Definition force_download_flags : M W unit :=
  o <- options ;;
  when_ (truthy (download_dir o))
    (set_options (set_no_install true) ;;
     set_options (set_ignore_installed true)).

(** Lines 200-201. *)
Definition resolve_dirs : M W unit :=
  o <- options ;;
  d <- query (fun w => abspath env w (build_dir o)) ;;
  set_options (set_build_dir d) ;;
  o <- options ;;
  d <- query (fun w => abspath env w (src_dir o)) ;;
  set_options (set_src_dir d).

(** Lines 203-206. *)
Definition user_site_option (aliased : bool) (install_options0 : list string)
    : M W (list string) :=
  o <- options ;;
  if use_user_site o then
    no_global <- query (virtualenv_no_global env) ;;
    if (no_global : bool) then raise (InstallationError user_site_msg)
    else append_install_option aliased "--user" install_options0
  else ret install_options0.

(** Lines 207-213: returns the locals [install_options] and
    [temp_target_dir]; the latter stays unbound when no target is given. *)
Definition stage_target (aliased : bool) (install_options1 : list string)
    : M W (list string * option string) :=
  o <- options ;;
  match target_dir o with
  | Some (String c p) =>
      set_options (set_ignore_installed true) ;;
      temp_target_dir <- call EvMkdtemp (mkdtemp env) ;;
      d <- query (fun w => abspath env w (String c p)) ;;
      set_options (set_target_dir (Some d)) ;;
      ex <- query (fun w => path_exists env w d) ;;
      isd <- query (fun w => path_isdir env w d) ;;
      if (ex : bool) && negb isd then raise (CommandError target_msg)
      else
        l <- append_install_option aliased ("--home=" +++ temp_target_dir)
               install_options1 ;;
        ret (l, Some temp_target_dir)
  | _ => ret (install_options1, None)
  end.

(** Lines 215-218. *)
Definition effective_index_urls : M W (list string) :=
  o <- options ;;
  let index_urls := index_url o :: extra_index_urls o in
  if no_index o then
    emit (EvNotify ("Ignoring indexes: " +++ String.concat "," index_urls)) ;;
    ret []
  else ret index_urls.

(** Lines 197-218: the options are brought into shape and the locals
    [install_options], [temp_target_dir], [global_options] and [index_urls]
    are set. *)
Definition normalize : M W Plan :=
  force_download_flags ;;
  resolve_dirs ;;
  o <- options ;;
  let aliased := opt_list_truthy (install_options o) in
  install_options1 <- user_site_option aliased (or_empty (install_options o)) ;;
  locals <- stage_target aliased install_options1 ;;
  o <- options ;;
  index_urls <- effective_index_urls ;;
  ret (mk_plan (fst locals) (snd locals) (or_empty (global_options o)) index_urls).

(** Lines 185-194. *)
Definition _build_package_finder (o : Options) (index_urls : list string)
    : PackageFinder :=
  mk_finder (find_links o) index_urls (use_mirrors o) (mirrors o).

Definition requirement_set_args (o : Options) : RequirementSetArgs :=
  mk_rsargs (build_dir o) (src_dir o) (download_dir o) (download_cache o)
    (upgrade o) (as_egg o) (ignore_installed o) (ignore_dependencies o)
    (force_reinstall o) (use_user_site o).

Definition add (r : Requirement) : M W unit :=
  call (EvAddRequirement r) (add_requirement env r).

(** Lines 220-241: the finder, the requirement set and its three sources. *)
Definition collect (args : list string) (plan : Plan) : M W PackageFinder :=
  o <- options ;;
  let finder := _build_package_finder o (plan_index_urls plan) in
  let a := requirement_set_args o in
  call (EvNewRequirementSet a) (fun w => (inr tt, new_requirement_set env a w)) ;;
  for_each args (fun line =>
    r <- call (EvFromLine line) (from_line env line) ;;
    add r) ;;
  for_each (editables o) (fun url =>
    r <- call (EvFromEditable url (default_vcs o))
           (from_editable env url (default_vcs o)) ;;
    add r) ;;
  for_each (requirements o) (fun filename =>
    g <- call (EvParseRequirements filename)
           (fun w => match parse_requirements env filename finder o w with
                     | (g, w') => (inr g, w')
                     end) ;;
    for_each (fst g) add ;;
    match snd g with
    | Some e => raise e
    | None => ret tt
    end) ;;
  ret finder.

(** Lines 243-250: the message of the early return. *)
Definition no_requirement_msg (o : Options) : string :=
  if list_truthy (find_links o) then
    "You must give at least one requirement to " +++ name self
    +++ " (maybe you meant " +++ dq +++ "pip " +++ name self +++ " "
    +++ String.concat " " (find_links o) +++ dq +++ "?)"
  else
    "You must give at least one requirement to " +++ name self
    +++ " (see " +++ dq +++ "pip help " +++ name self +++ dq +++ ")".

Definition soft_exit : M W unit :=
  o <- options ;;
  emit (EvWarn (no_requirement_msg o)).

Definition old_python_msg : string :=
  "--user is only supported in Python version 2.6 and newer".

Definition user_editable_msg : string :=
  "--user --editable not supported with setuptools, use distribute".

(** Lines 254-263. *)
Definition check_preconditions : M W unit :=
  o <- options ;;
  when_ (use_user_site o && version_lt (version_info env) 2 6)
    (raise (InstallationError old_python_msg)) ;;
  distribute <- call_silent (import_setuptools env) ;;
  editable <- query (has_editables env) ;;
  when_ (use_user_site o && editable && negb distribute)
    (raise (InstallationError user_editable_msg)).

(** Lines 265-268. *)
Definition acquire (finder : PackageFinder) : M W unit :=
  o <- options ;;
  if negb (no_download o) then
    call (EvPrepareFiles finder (bundle self) (bundle self))
      (prepare_files env finder (bundle self) (bundle self))
  else
    call EvLocateFiles (locate_files env).

(** [' '.join([req.name for req in reqs])] *)
Definition names (reqs : list Requirement) : string :=
  String.concat " " (map req_name reqs).

(** Lines 271-275. *)
Definition install_mode (plan : Plan) : M W unit :=
  o <- options ;;
  call (EvInstall (plan_install_options plan) (plan_global_options plan) (root_path o))
    (install env (plan_install_options plan) (plan_global_options plan) (root_path o)) ;;
  reqs <- query (successfully_installed env) ;;
  let installed := names reqs in
  when_ (str_truthy installed) (emit (EvNotify ("Successfully installed " +++ installed))).

(** Lines 277-280. *)
Definition download_report : M W unit :=
  reqs <- query (successfully_downloaded env) ;;
  let downloaded := names reqs in
  when_ (str_truthy downloaded) (emit (EvNotify ("Successfully downloaded " +++ downloaded))).

(** Lines 282-283. *)
Definition bundle_mode : M W unit :=
  call (EvCreateBundle (bundle_filename self)) (create_bundle env (bundle_filename self)) ;;
  emit (EvNotify ("Created bundle in " +++ bundle_filename self)).

(** Lines 270-283, with the tests as the source writes them. *)
Definition run_mode (plan : Plan) : M W unit :=
  o <- options ;;
  if negb (no_install o) && negb (bundle self) then install_mode plan
  else if negb (bundle self) then download_report
  else if bundle self then bundle_mode
  else ret tt.

(** Lines 285-286. *)
Definition cleanup : M W unit :=
  o <- options ;;
  when_ (negb (no_install o) || truthy (download_dir o))
    (call (EvCleanupFiles (bundle self)) (cleanup_files env (bundle self))).

(** Lines 291-295: the loop over the entries of [lib_dir]. *)
Definition move_entries (lib_dir target : string) (items : list string) : M W unit :=
  for_each items (fun item =>
    call (EvMove (path_join env lib_dir item) (path_join env target item))
      (move env (path_join env lib_dir item) (path_join env target item))).

(** Lines 288-295: everything of the relocation but the final [rmtree].
    [temp_target_dir] is a local that is bound only in the branch of line
    207; reading it unbound raises. *)
Definition relocate_entries (plan : Plan) (target : string) : M W string :=
  ex <- query (fun w => path_exists env w target) ;;
  when_ (negb ex) (call (EvMakedirs target) (makedirs env target)) ;;
  temp_target_dir <-
    (match plan_temp_target_dir plan with
     | Some t => ret t
     | None => raise (UnboundLocalError
                        "local variable 'temp_target_dir' referenced before assignment")
     end) ;;
  let lib_dir := home_lib env temp_target_dir in
  items <- call (EvListdir lib_dir) (listdir env lib_dir) ;;
  move_entries lib_dir target items ;;
  ret temp_target_dir.

(** Lines 287-296. *)
Definition relocate (plan : Plan) : M W unit :=
  o <- options ;;
  match target_dir o with
  | Some (String c p) =>
      temp_target_dir <- relocate_entries plan (String c p) ;;
      call (EvRmtree temp_target_dir) (rmtree env temp_target_dir)
  | _ => ret tt
  end.

(** Lines 287-297. *)
Definition post_cleanup (plan : Plan) : M W retval :=
  relocate plan ;;
  ret RetRequirementSet.

(** Lines 284-297. *)
Definition post_mode (plan : Plan) : M W retval :=
  cleanup ;;
  post_cleanup plan.

(** Lines 270-297. *)
Definition post_acquire (plan : Plan) : M W retval :=
  run_mode plan ;;
  post_mode plan.

(** Lines 265-297: acquisition and everything after it. *)
Definition post_checks (plan : Plan) (finder : PackageFinder) : M W retval :=
  acquire finder ;;
  post_acquire plan.

(** Lines 254-297: what [run] does once the requirement set is known to be
    non-empty. *)
Definition finish (plan : Plan) (finder : PackageFinder) : M W retval :=
  check_preconditions ;;
  post_checks plan finder.

(** Lines 242-297: the early return on an empty requirement set, or the
    rest of the run. *)
Definition conclude (plan : Plan) (finder : PackageFinder) : M W retval :=
  has <- query (has_requirements env) ;;
  if negb has then
    soft_exit ;;
    ret RetNone
  else
    finish plan finder.

(** Lines 196-297. *)
Definition run (args : list string) : M W retval :=
  plan <- normalize ;;
  finder <- collect args plan ;;
  conclude plan finder.

(** *** Initial segments of [run]

    The statements below speak of the state in which a step of [run] starts.
    These two computations are [run] cut short: lemmas [run_gather] and
    [run_prologue] show that [run] is each of them followed by the rest of
    its body. *)

(** Lines 196-241: up to the end of the requirement collection. *)
Definition gather (args : list string) : M W (Plan * PackageFinder) :=
  plan <- normalize ;;
  finder <- collect args plan ;;
  ret (plan, finder).

(** Lines 196-263: up to the acquisition step; [None] when [run] has taken
    the early return of line 252. *)
Definition prologue (args : list string) : M W (option (Plan * PackageFinder)) :=
  pf <- gather args ;;
  has <- query (has_requirements env) ;;
  if negb has then
    soft_exit ;;
    ret None
  else
    check_preconditions ;;
    ret (Some pf).

(** Lines 265-283: acquisition and the outcome mode. *)
Definition acquire_and_run_mode (plan : Plan) (finder : PackageFinder) : M W unit :=
  acquire finder ;;
  run_mode plan.

(** Lines 265-286: acquisition, the outcome mode and the clean-up of the
    build artefacts. *)
Definition up_to_cleanup (plan : Plan) (finder : PackageFinder) : M W unit :=
  acquire_and_run_mode plan finder ;;
  cleanup.



(** *** The outcome modes as the specification orders them *)

Inductive mode := BundleMode | DownloadOnly | NormalInstall.

(** Bundle first, then "no install", then the normal install. *)
Definition mode_by_priority (o : Options) : mode :=
  if bundle self then BundleMode
  else if no_install o then DownloadOnly
  else NormalInstall.

Definition run_selected (plan : Plan) (m : mode) : M W unit :=
  match m with
  | BundleMode => bundle_mode
  | DownloadOnly => download_report
  | NormalInstall => install_mode plan
  end.

End Run.

(** ** A small concrete world

    Used to run [run] on concrete invocations. *)

Module Toy.

(** Modelled from the spec: the requirement set of [pip.req], which is not
    part of this module.  The specification describes it as an ordered,
    duplicate-tolerant collection of the requirements added to it, so the
    world holds the list of the requirements added so far.  The file system
    is the list of existing directories and the list of other entries. *)
Record world := mk_world {
  w_requirements : list Requirement;
  w_dirs : list string;
  w_files : list string
}.

(** What is fixed for one run: the kind of environment, the interpreter, the
    names found under the library directory of the temporary home, and
    whether the acquisition step fails. *)
Record setting := mk_setting {
  no_global : bool;
  python : nat * nat;
  lib_entries : list string;
  prepare_fails : bool
}.

Definition mem (p : string) (l : list string) : bool := existsb (String.eqb p) l.

Definition ok {A : Type} (a : A) : ext world A := fun w => (inr a, w).

Definition add_dir (p : string) : ext world unit :=
  fun w => (inr tt, mk_world (w_requirements w) (p :: w_dirs w) (w_files w)).

Definition env (c : setting) : Environment world :=
  mk_env world
    (fun _ p => match p with
                | EmptyString => "/cwd"
                | String c _ => if Ascii.eqb c "/" then p else "/cwd/" +++ p
                end)
    (fun w p => mem p (w_dirs w) || mem p (w_files w))
    (fun w p => mem p (w_dirs w))
    (fun a b => a +++ "/" +++ b)
    (fun w => (inr "/tmp/tmpdir",
               mk_world (w_requirements w) ("/tmp/tmpdir" :: w_dirs w) (w_files w)))
    add_dir
    (fun _ => ok (lib_entries c))
    (fun _ _ => ok tt)
    (fun _ => ok tt)
    (python c)
    (fun _ => no_global c)
    (fun t => t +++ "/lib/python")
    (ok false)
    (fun line => ok (mk_requirement line false))
    (fun url _ => ok (mk_requirement url true))
    (fun _ _ _ w => (([], None), w))
    (fun _ w => mk_world [] (w_dirs w) (w_files w))
    (fun r w => (inr tt, mk_world (w_requirements w ++ [r]) (w_dirs w) (w_files w)))
    (fun w => list_truthy (w_requirements w))
    (fun w => existsb req_editable (w_requirements w))
    (fun _ _ _ w =>
       if prepare_fails c then (inl (InstallationError "no distribution found"), w)
       else (inr tt, w))
    (ok tt)
    (fun _ _ _ => ok tt)
    w_requirements
    w_requirements
    (fun _ => ok tt)
    (fun _ => ok tt).

(** The options of an invocation with no flag given. *)
Definition defaults : Options :=
  mk_options None false false "/tmp/pip-build" "src" None false None None
    "https://pypi.python.org/simple/" [] false [] false [] None false false
    false false [] "git" [] false None.

Definition install_cmd : Command := mk_command "install" false EmptyString.

Definition plain : setting := mk_setting false (2, 7) ["pkg"; "pkg.egg-info"] false.

(** A virtualenv that hides the global site-packages, on Python 2.5. *)
Definition isolated : setting := mk_setting true (2, 5) [] false.

(** Python 2.5 outside any virtualenv. *)
Definition old_python : setting := mk_setting false (2, 5) [] false.

(** An index that has nothing for the requirement: [prepare_files] raises. *)
Definition failing : setting := mk_setting false (2, 7) [] true.

Definition empty_world : world := mk_world [] [] [].

Definition start (o : Options) : State world := mk_state o empty_world.

Definition with_target (d : string) (o : Options) : Options :=
  set_target_dir (Some d) o.

Definition with_user (o : Options) : Options :=
  mk_options (download_dir o) (no_install o) (ignore_installed o) (build_dir o)
    (src_dir o) (install_options o) true (target_dir o) (global_options o)
    (index_url o) (extra_index_urls o) (no_index o) (find_links o)
    (use_mirrors o) (mirrors o) (download_cache o) (upgrade o) (as_egg o)
    (ignore_dependencies o) (force_reinstall o) (editables o) (default_vcs o)
    (requirements o) (no_download o) (root_path o).

Definition with_download (d : string) (o : Options) : Options :=
  mk_options (Some d) (no_install o) (ignore_installed o) (build_dir o)
    (src_dir o) (install_options o) (use_user_site o) (target_dir o) (global_options o)
    (index_url o) (extra_index_urls o) (no_index o) (find_links o)
    (use_mirrors o) (mirrors o) (download_cache o) (upgrade o) (as_egg o)
    (ignore_dependencies o) (force_reinstall o) (editables o) (default_vcs o)
    (requirements o) (no_download o) (root_path o).

End Toy.

(** * More concrete settings *)

Module Cases.

Import Toy.

(** [pip install --user --install-option=--prefix=/x pkg-a] *)
Definition user_prefix : Options :=
  mk_options None false false "/tmp/pip-build" "src" (Some ["--prefix=/x"]) true
    None None "https://pypi.python.org/simple/" [] false [] false [] None false
    false false false [] "git" [] false None.


(** [pip install --user -t /opt/mylib --install-option=--prefix=/x
    --global-option=-q --root /r pkg-a] *)
Definition user_target : Options :=
  mk_options None false false "/tmp/pip-build" "src" (Some ["--prefix=/x"]) true
    (Some "/opt/mylib") (Some ["-q"]) "https://pypi.python.org/simple/" []
    false [] false [] None false false false false [] "git" [] false (Some "/r").

(** [pip install --user -e git+http://h/repo pkg-a -r reqs.txt] *)
Definition user_editable : Options :=
  mk_options None false false "/tmp/pip-build" "src" None true None None
    "https://pypi.python.org/simple/" [] false [] false [] None false false
    false false ["git+http://h/repo"] "git" ["reqs.txt"] false None.

(** A file system in which /opt/mylib is a file. *)
Definition file_in_the_way : world := mk_world [] [] ["/opt/mylib"].

(** The environment [E], with another [import setuptools]. *)
Definition with_import_setuptools {W : Type} (imp : ext W bool)
    (E : Environment W) : Environment W :=
  mk_env W (abspath E) (path_exists E) (path_isdir E) (path_join E) (mkdtemp E)
    (makedirs E) (listdir E) (move E) (rmtree E) (version_info E)
    (virtualenv_no_global E) (home_lib E) imp (from_line E) (from_editable E)
    (parse_requirements E) (new_requirement_set E) (add_requirement E)
    (has_requirements E) (has_editables E) (prepare_files E) (locate_files E)
    (install E) (successfully_installed E) (successfully_downloaded E)
    (create_bundle E) (cleanup_files E).


(** No setuptools installed. *)
Definition no_setuptools : Environment world :=
  with_import_setuptools
    (fun w => (inl (mk_exn "ImportError" "No module named setuptools"), w))
    (env plain).


End Cases.

(** * Notions used by the further properties *)

(** The options fields that [normalize] never writes. *)
Definition untouched (o o' : Options) : Prop :=
  download_dir o' = download_dir o
  /\ use_user_site o' = use_user_site o
  /\ global_options o' = global_options o
  /\ index_url o' = index_url o
  /\ extra_index_urls o' = extra_index_urls o
  /\ no_index o' = no_index o
  /\ find_links o' = find_links o
  /\ use_mirrors o' = use_mirrors o
  /\ mirrors o' = mirrors o
  /\ download_cache o' = download_cache o
  /\ upgrade o' = upgrade o
  /\ as_egg o' = as_egg o
  /\ ignore_dependencies o' = ignore_dependencies o
  /\ force_reinstall o' = force_reinstall o
  /\ editables o' = editables o
  /\ default_vcs o' = default_vcs o
  /\ requirements o' = requirements o
  /\ no_download o' = no_download o
  /\ root_path o' = root_path o.

(** The calls that build a requirement from one of the three sources. *)
Definition is_constructor (e : event) : bool :=
  match e with
  | EvFromLine _ | EvFromEditable _ _ | EvParseRequirements _ => true
  | _ => false
  end.

Definition is_add_requirement (e : event) : bool :=
  match e with EvAddRequirement _ => true | _ => false end.

(** The calls on the file system: [mkdtemp] and the relocation. *)
Definition is_filesystem (e : event) : bool := is_mkdtemp e || is_relocate e.

(** * Statements of the specification that [run] does not satisfy

    Each is written as the specification states it; it is refuted below on a
    concrete run, and the statement that does hold is proved after it. *)

(** "A run that raises during acquisition still attempts the clean-up of the
    build artefacts and the deletion of the temporary redirect directory
    before the error reaches the caller." *)
Definition cleanup_attempted_on_failure : Prop :=
  forall (W : Type) (env : Environment W) (self : Command) args s
         plan finder s3 t0 e s4 t4 tmp,
    prologue env self args s = (Ok (Some (plan, finder)), s3, t0) ->
    acquire env self finder s3 = (Raise e, s4, t4) ->
    plan_temp_target_dir plan = Some tmp ->
    0 < count is_cleanup (snd (run env self args s))
    /\ In (EvRmtree tmp) (snd (run env self args s)).

(** "In every run that returns, [cleanup_files] is called if and only if
    [no_install] is false or a download directory was requested." *)
Definition cleanup_iff_mode : Prop :=
  forall (W : Type) (env : Environment W) (self : Command) args s r s' t,
    run env self args s = (Ok r, s', t) ->
    (0 < count is_cleanup t
     <-> (no_install (st_options s') = false
          \/ truthy (download_dir (st_options s')) = true)).



(** "With [use_user_site] set on an interpreter older than 2.6, the run
    raises the error about Python 2.6 after the collection and before any
    acquisition, unless the requirement set is empty, in which case it takes
    the early return." *)
Definition old_python_always_rejected : Prop :=
  forall (W : Type) (env : Environment W) (self : Command) args s,
    use_user_site (st_options s) = true ->
    version_lt (version_info env) 2 6 = true ->
    (fst (fst (run env self args s)) = Raise (InstallationError old_python_msg)
     /\ count is_acquire (snd (run env self args s)) = 0)
    \/ fst (fst (run env self args s)) = Ok RetNone.

(** * Reasoning about computations *)

Section Logic.

Context {W : Type}.

Lemma bind_ok {A B : Type} (m : M W A) (k : A -> M W B) s a s1 t1 :
  m s = (Ok a, s1, t1) ->
  bind m k s = (fst (fst (k a s1)), snd (fst (k a s1)), t1 ++ snd (k a s1)).
Proof.
  intros H. unfold bind. rewrite H.
  destruct (k a s1) as [[r s2] t2]. reflexivity.
Qed.

Lemma bind_raise {A B : Type} (m : M W A) (k : A -> M W B) s e s1 t1 :
  m s = (Raise e, s1, t1) ->
  bind m k s = (Raise e, s1, t1).
Proof. intros H. unfold bind. rewrite H. reflexivity. Qed.

Lemma bind_inv {A B : Type} (m : M W A) (k : A -> M W B) s r s' t :
  bind m k s = (r, s', t) ->
  (exists a s1 t1 t2,
      m s = (Ok a, s1, t1) /\ k a s1 = (r, s', t2) /\ t = t1 ++ t2)
  \/ (exists e, m s = (Raise e, s', t) /\ r = Raise e).
Proof.
  unfold bind. destruct (m s) as [[[a | e] s1] t1].
  - destruct (k a s1) as [[r2 s2] t2] eqn:Hk. intros H.
    injection H as <- <- <-. left. exists a, s1, t1, t2. auto.
  - intros H. injection H as <- <- <-. right. exists e. auto.
Qed.

Lemma after_nil {A : Type} (x : result A * State W * list event) :
  after [] x = x.
Proof. destruct x as [[r s] t]. reflexivity. Qed.

Lemma after_after {A : Type} t1 t2 (x : result A * State W * list event) :
  after t1 (after t2 x) = after (t1 ++ t2) x.
Proof. unfold after. simpl. rewrite app_assoc. reflexivity. Qed.

Lemma bind_ok_after {A B : Type} (m : M W A) (k : A -> M W B) s a s1 t1 :
  m s = (Ok a, s1, t1) -> bind m k s = after t1 (k a s1).
Proof. apply bind_ok. Qed.

Lemma bind_ret {A B : Type} (a : A) (k : A -> M W B) s :
  bind (ret a) k s = k a s.
Proof. unfold bind, ret. destruct (k a s) as [[r s2] t2]. reflexivity. Qed.

Lemma bind_options {B : Type} (k : Options -> M W B) s :
  bind options k s = k (st_options s) s.
Proof. unfold bind, options. destruct (k _ s) as [[r s2] t2]. reflexivity. Qed.

Lemma bind_set_options {B : Type} f (k : unit -> M W B) s :
  bind (set_options f) k s = k tt (mk_state (f (st_options s)) (st_world s)).
Proof.
  unfold bind, set_options. destruct (k tt _) as [[r s2] t2]. reflexivity.
Qed.

Lemma bind_query {A B : Type} (q : W -> A) (k : A -> M W B) s :
  bind (query q) k s = k (q (st_world s)) s.
Proof. unfold bind, query. destruct (k _ s) as [[r s2] t2]. reflexivity. Qed.

Lemma bind_emit {B : Type} e (k : unit -> M W B) s :
  bind (emit e) k s = after [e] (k tt s).
Proof. unfold bind, emit. destruct (k tt s) as [[r s2] t2]. reflexivity. Qed.

Lemma bind_assoc {A B C : Type} (m : M W A) (k : A -> M W B) (h : B -> M W C) s :
  bind (bind m k) h s = bind m (fun a => bind (k a) h) s.
Proof.
  unfold bind. destruct (m s) as [[[a | e] s1] t1]; [ | reflexivity ].
  destruct (k a s1) as [[[b | e] s2] t2]; [ | reflexivity ].
  destruct (h b s2) as [[r s3] t3]. rewrite app_assoc. reflexivity.
Qed.

Lemma emits_apply {A : Type} (P : event -> bool) (m : M W A) s :
  emits P m -> forallb P (snd (m s)) = true.
Proof. intros H. apply H. Qed.

Lemma preserves_apply {A : Type} (I : Options -> Prop) (m : M W A) s :
  preserves I m -> I (st_options s) -> I (st_options (snd (fst (m s)))).
Proof. intros H. apply H. Qed.

Lemma emits_weaken {A : Type} (P Q : event -> bool) (m : M W A) :
  (forall e, P e = true -> Q e = true) -> emits P m -> emits Q m.
Proof.
  intros HPQ Hm s. specialize (Hm s).
  rewrite forallb_forall in *. auto.
Qed.

Lemma emits_ret {A : Type} P (a : A) : emits P (ret (W := W) a).
Proof. intros s. reflexivity. Qed.

Lemma emits_raise {A : Type} P e : emits P (raise (W := W) (A := A) e).
Proof. intros s. reflexivity. Qed.

Lemma emits_options P : emits P (options (W := W)).
Proof. intros s. reflexivity. Qed.

Lemma emits_set_options P f : emits P (set_options (W := W) f).
Proof. intros s. reflexivity. Qed.

Lemma emits_query {A : Type} P (q : W -> A) : emits P (query q).
Proof. intros s. reflexivity. Qed.

Lemma emits_emit P e : P e = true -> emits P (emit (W := W) e).
Proof. intros H s. simpl. rewrite H. reflexivity. Qed.

Lemma emits_call_silent {A : Type} P (op : ext W A) : emits P (call_silent op).
Proof.
  intros s. unfold call_silent.
  destruct (op (st_world s)) as [[e | a] w]; reflexivity.
Qed.

Lemma emits_bind {A B : Type} P (m : M W A) (k : A -> M W B) :
  emits P m -> (forall a, emits P (k a)) -> emits P (bind m k).
Proof.
  intros Hm Hk s. specialize (Hm s). unfold bind.
  destruct (m s) as [[[a | e] s1] t1]; simpl in *.
  - specialize (Hk a s1). destruct (k a s1) as [[r2 s2] t2]; simpl in *.
    rewrite forallb_app, Hm, Hk. reflexivity.
  - exact Hm.
Qed.

Lemma emits_call {A : Type} P e (op : ext W A) :
  P e = true -> emits P (call e op).
Proof.
  intros H. unfold call. apply emits_bind.
  - apply emits_emit, H.
  - intros _. apply emits_call_silent.
Qed.

Lemma emits_when P b (m : M W unit) : emits P m -> emits P (when_ b m).
Proof. intros H. destruct b; simpl; [exact H | apply emits_ret]. Qed.

Lemma emits_for_each {A : Type} P (l : list A) (body : A -> M W unit) :
  (forall x, emits P (body x)) -> emits P (for_each l body).
Proof.
  intros H. induction l as [| x l IH]; simpl.
  - apply emits_ret.
  - apply emits_bind; [apply H | intros _; exact IH].
Qed.

Lemma preserves_ret {A : Type} I (a : A) : preserves I (ret (W := W) a).
Proof. intros s H. exact H. Qed.

Lemma preserves_raise {A : Type} I e : preserves I (raise (W := W) (A := A) e).
Proof. intros s H. exact H. Qed.

Lemma preserves_options I : preserves I (options (W := W)).
Proof. intros s H. exact H. Qed.

Lemma preserves_set_options (I : Options -> Prop) f :
  (forall o, I o -> I (f o)) -> preserves I (set_options (W := W) f).
Proof. intros Hf s H. simpl. auto. Qed.

Lemma preserves_query {A : Type} I (q : W -> A) : preserves I (query q).
Proof. intros s H. exact H. Qed.

Lemma preserves_emit I e : preserves I (emit (W := W) e).
Proof. intros s H. exact H. Qed.

Lemma preserves_call_silent {A : Type} I (op : ext W A) :
  preserves I (call_silent op).
Proof.
  intros s H. unfold call_silent.
  destruct (op (st_world s)) as [[e | a] w]; exact H.
Qed.

Lemma preserves_bind {A B : Type} I (m : M W A) (k : A -> M W B) :
  preserves I m -> (forall a, preserves I (k a)) -> preserves I (bind m k).
Proof.
  intros Hm Hk s H. specialize (Hm s H). unfold bind.
  destruct (m s) as [[[a | e] s1] t1]; simpl in *.
  - specialize (Hk a s1 Hm). destruct (k a s1) as [[r2 s2] t2]. exact Hk.
  - exact Hm.
Qed.

Lemma preserves_call {A : Type} I e (op : ext W A) : preserves I (call e op).
Proof.
  unfold call. apply preserves_bind.
  - apply preserves_emit.
  - intros _. apply preserves_call_silent.
Qed.

Lemma preserves_when I b (m : M W unit) :
  preserves I m -> preserves I (when_ b m).
Proof. intros H. destruct b; simpl; [exact H | apply preserves_ret]. Qed.

Lemma preserves_for_each {A : Type} I (l : list A) (body : A -> M W unit) :
  (forall x, preserves I (body x)) -> preserves I (for_each l body).
Proof.
  intros H. induction l as [| x l IH]; simpl.
  - apply preserves_ret.
  - apply preserves_bind; [apply H | intros _; exact IH].
Qed.

End Logic.

(** One step of a proof that follows the shape of the computation. *)
Ltac emits_step :=
  match goal with
  | |- emits _ (call _ _) => apply emits_call; reflexivity
  | |- emits _ (bind _ _) => apply emits_bind; [ | intros ? ]
  | |- emits _ (ret _) => apply emits_ret
  | |- emits _ (raise _) => apply emits_raise
  | |- emits _ options => apply emits_options
  | |- emits _ (set_options _) => apply emits_set_options
  | |- emits _ (query _) => apply emits_query
  | |- emits _ (call_silent _) => apply emits_call_silent
  | |- emits _ (emit _) => apply emits_emit; reflexivity
  | |- emits _ (when_ _ _) => apply emits_when
  | |- emits _ (for_each _ _) => apply emits_for_each; intros ?
  | |- emits _ (if ?b then _ else _) => destruct b
  | |- emits _ (match ?x with _ => _ end) => destruct x
  end.

Ltac preserves_step :=
  match goal with
  | |- preserves _ (call _ _) => apply preserves_call
  | |- preserves _ (bind _ _) => apply preserves_bind; [ | intros ? ]
  | |- preserves _ (ret _) => apply preserves_ret
  | |- preserves _ (raise _) => apply preserves_raise
  | |- preserves _ options => apply preserves_options
  | |- preserves _ (set_options _) =>
      apply preserves_set_options; simpl; intuition congruence
  | |- preserves _ (query _) => apply preserves_query
  | |- preserves _ (call_silent _) => apply preserves_call_silent
  | |- preserves _ (emit _) => apply preserves_emit
  | |- preserves _ (when_ _ _) => apply preserves_when
  | |- preserves _ (for_each _ _) => apply preserves_for_each; intros ?
  | |- preserves _ (if ?b then _ else _) => destruct b
  | |- preserves _ (match ?x with _ => _ end) => destruct x
  end.

(** Inclusion of one class of calls in another, by cases on the call. *)
Ltac ev_cases :=
  let e := fresh "e" in
  let H := fresh "H" in
  intros e H; destruct e; cbv in H |- *; congruence.

(** * The steps of [run] *)

Section Steps.

Context {W : Type}.
Variable env : Environment W.
Variable self : Command.

(** ** Which calls each step makes *)

Lemma normalize_emits : emits is_normalize (normalize env).
Proof.
  unfold normalize, force_download_flags, resolve_dirs, user_site_option,
    stage_target, effective_index_urls, append_install_option.
  repeat emits_step.
Qed.

Lemma collect_emits args plan : emits is_collect (collect env args plan).
Proof. unfold collect, add. repeat emits_step. Qed.

Lemma soft_exit_emits : emits is_warn (soft_exit (W := W) self).
Proof. unfold soft_exit. repeat emits_step. Qed.

Lemma check_preconditions_emits : emits no_event (check_preconditions env).
Proof. unfold check_preconditions. repeat emits_step. Qed.

Lemma acquire_emits finder : emits is_acquire (acquire env self finder).
Proof. unfold acquire. repeat emits_step. Qed.

Lemma run_mode_emits plan : emits is_mode (run_mode env self plan).
Proof.
  unfold run_mode, install_mode, download_report, bundle_mode.
  repeat emits_step.
Qed.

Lemma cleanup_emits : emits is_cleanup (cleanup env self).
Proof. unfold cleanup. repeat emits_step. Qed.

Lemma relocate_emits plan : emits is_relocate (relocate env plan).
Proof.
  unfold relocate, relocate_entries, move_entries. repeat emits_step.
Qed.

Lemma post_cleanup_emits plan : emits is_relocate (post_cleanup env plan).
Proof.
  unfold post_cleanup.
  apply emits_bind; [ apply relocate_emits | intros ?; apply emits_ret ].
Qed.

Lemma post_mode_emits plan : emits is_post_mode (post_mode env self plan).
Proof.
  unfold post_mode. apply emits_bind; [ | intros ? ].
  - apply emits_weaken with (P := is_cleanup); [ ev_cases | apply cleanup_emits ].
  - apply emits_weaken with (P := is_relocate);
      [ ev_cases | apply post_cleanup_emits ].
Qed.

Lemma post_acquire_emits plan :
  emits is_post_acquire (post_acquire env self plan).
Proof.
  unfold post_acquire. apply emits_bind; [ | intros ? ].
  - apply emits_weaken with (P := is_mode); [ ev_cases | apply run_mode_emits ].
  - apply emits_weaken with (P := is_post_mode);
      [ ev_cases | apply post_mode_emits ].
Qed.

Lemma post_checks_emits plan finder :
  emits is_late (post_checks env self plan finder).
Proof.
  unfold post_checks. apply emits_bind; [ | intros ? ].
  - apply emits_weaken with (P := is_acquire); [ ev_cases | apply acquire_emits ].
  - apply emits_weaken with (P := is_post_acquire);
      [ ev_cases | apply post_acquire_emits ].
Qed.

Lemma finish_emits plan finder : emits is_late (finish env self plan finder).
Proof.
  unfold finish. apply emits_bind; [ | intros ? ].
  - apply emits_weaken with (P := no_event);
      [ ev_cases | apply check_preconditions_emits ].
  - apply post_checks_emits.
Qed.

Lemma conclude_emits plan finder :
  emits (fun e => is_warn e || is_late e) (conclude env self plan finder).
Proof.
  unfold conclude.
  apply emits_bind; [ apply emits_query | intros has ].
  destruct (negb has).
  - apply emits_bind; [ | intros ?; apply emits_ret ].
    apply emits_weaken with (P := is_warn); [ ev_cases | apply soft_exit_emits ].
  - apply emits_weaken with (P := is_late); [ ev_cases | apply finish_emits ].
Qed.

Lemma gather_emits args : emits is_gather (gather env args).
Proof.
  unfold gather.
  apply emits_bind; [ | intros plan ].
  { apply emits_weaken with (P := is_normalize); [ ev_cases | apply normalize_emits ]. }
  apply emits_bind; [ | intros ?; apply emits_ret ].
  apply emits_weaken with (P := is_collect); [ ev_cases | apply collect_emits ].
Qed.

Lemma prologue_emits args : emits is_early (prologue env self args).
Proof.
  unfold prologue.
  apply emits_bind; [ | intros pf ].
  { apply emits_weaken with (P := is_gather); [ ev_cases | apply gather_emits ]. }
  apply emits_bind; [ apply emits_query | intros has ].
  destruct (negb has).
  - apply emits_bind; [ | intros ?; apply emits_ret ].
    apply emits_weaken with (P := is_warn); [ ev_cases | apply soft_exit_emits ].
  - apply emits_bind; [ | intros ?; apply emits_ret ].
    apply emits_weaken with (P := no_event);
      [ ev_cases | apply check_preconditions_emits ].
Qed.

(** ** The options object is written by the first step only *)

Lemma normalize_preserves (I : Options -> Prop) :
  (forall o, I o -> I (set_no_install true o)) ->
  (forall o, I o -> I (set_ignore_installed true o)) ->
  (forall d o, I o -> I (set_build_dir d o)) ->
  (forall d o, I o -> I (set_src_dir d o)) ->
  (forall l o, I o -> I (set_install_options l o)) ->
  (forall d o, I o -> I (set_target_dir d o)) ->
  preserves I (normalize env).
Proof.
  intros H1 H2 H3 H4 H5 H6.
  unfold normalize, force_download_flags, resolve_dirs, user_site_option,
    stage_target, effective_index_urls, append_install_option.
  repeat first
    [ apply preserves_set_options; solve [ auto ]
    | preserves_step ].
Qed.

Lemma collect_preserves I args plan : preserves I (collect env args plan).
Proof. unfold collect, add. repeat preserves_step. Qed.

Lemma soft_exit_preserves I : preserves I (soft_exit (W := W) self).
Proof. unfold soft_exit. repeat preserves_step. Qed.

Lemma check_preconditions_preserves I : preserves I (check_preconditions env).
Proof. unfold check_preconditions. repeat preserves_step. Qed.

Lemma acquire_preserves I finder : preserves I (acquire env self finder).
Proof. unfold acquire. repeat preserves_step. Qed.

Lemma run_mode_preserves I plan : preserves I (run_mode env self plan).
Proof.
  unfold run_mode, install_mode, download_report, bundle_mode.
  repeat preserves_step.
Qed.

Lemma cleanup_preserves I : preserves I (cleanup env self).
Proof. unfold cleanup. repeat preserves_step. Qed.

Lemma relocate_entries_preserves I plan target :
  preserves I (relocate_entries env plan target).
Proof. unfold relocate_entries, move_entries. repeat preserves_step. Qed.

Lemma relocate_preserves I plan : preserves I (relocate env plan).
Proof.
  unfold relocate, relocate_entries, move_entries. repeat preserves_step.
Qed.

Lemma post_checks_preserves I plan finder :
  preserves I (post_checks env self plan finder).
Proof.
  unfold post_checks, post_acquire, post_mode, post_cleanup.
  repeat first
    [ apply acquire_preserves | apply run_mode_preserves
    | apply cleanup_preserves | apply relocate_preserves
    | preserves_step ].
Qed.

Lemma finish_preserves I plan finder : preserves I (finish env self plan finder).
Proof.
  unfold finish. apply preserves_bind.
  - apply check_preconditions_preserves.
  - intros _. apply post_checks_preserves.
Qed.

Lemma conclude_preserves I plan finder :
  preserves I (conclude env self plan finder).
Proof.
  unfold conclude.
  apply preserves_bind; [ apply preserves_query | intros has ].
  destruct (negb has).
  - apply preserves_bind; [ apply soft_exit_preserves | intros ? ].
    apply preserves_ret.
  - apply finish_preserves.
Qed.

Lemma gather_preserves (I : Options -> Prop) args :
  preserves I (normalize env) -> preserves I (gather env args).
Proof.
  intros H. unfold gather.
  apply preserves_bind; [ exact H | intros plan ].
  apply preserves_bind; [ apply collect_preserves | intros ? ].
  apply preserves_ret.
Qed.


Lemma run_preserves (I : Options -> Prop) args :
  preserves I (normalize env) -> preserves I (run env self args).
Proof.
  intros H. unfold run.
  apply preserves_bind; [ exact H | intros plan ].
  apply preserves_bind; [ apply collect_preserves | intros finder ].
  apply conclude_preserves.
Qed.

(** ** [run] factors through its initial segments *)

Lemma run_gather args s :
  run env self args s =
  match gather env args s with
  | (Ok (plan, finder), s2, t) => after t (conclude env self plan finder s2)
  | (Raise e, s2, t) => (Raise e, s2, t)
  end.
Proof.
  unfold run, gather.
  destruct (normalize env s) as [[[plan | e] s1] t1] eqn:Hn.
  2: { rewrite !(bind_raise _ _ _ _ _ _ Hn). reflexivity. }
  rewrite !(bind_ok_after _ _ _ _ _ _ Hn).
  destruct (collect env args plan s1) as [[[finder | e] s2] t2] eqn:Hc.
  2: { rewrite !(bind_raise _ _ _ _ _ _ Hc). reflexivity. }
  rewrite !(bind_ok_after _ _ _ _ _ _ Hc).
  unfold after at 3 4. simpl. rewrite app_nil_r, after_after. reflexivity.
Qed.

Lemma conclude_empty plan finder s :
  has_requirements env (st_world s) = false ->
  conclude env self plan finder s
  = (Ok RetNone, s, [EvWarn (no_requirement_msg self (st_options s))]).
Proof.
  intros H. unfold conclude. rewrite bind_query, H. reflexivity.
Qed.

Lemma conclude_nonempty plan finder s :
  has_requirements env (st_world s) = true ->
  conclude env self plan finder s = finish env self plan finder s.
Proof.
  intros H. unfold conclude. rewrite bind_query, H. reflexivity.
Qed.

Lemma run_prologue args s :
  run env self args s =
  match prologue env self args s with
  | (Ok (Some (plan, finder)), s3, t0) =>
      after t0 (post_checks env self plan finder s3)
  | (Ok None, s', t) => (Ok RetNone, s', t)
  | (Raise e, s', t) => (Raise e, s', t)
  end.
Proof.
  rewrite run_gather. unfold prologue.
  destruct (gather env args s) as [[[[plan finder] | e] s2] t] eqn:Hg.
  2: { rewrite (bind_raise _ _ _ _ _ _ Hg). reflexivity. }
  rewrite (bind_ok_after _ _ _ _ _ _ Hg), bind_query. unfold conclude.
  rewrite bind_query.
  destruct (has_requirements env (st_world s2)); simpl.
  - unfold finish.
    destruct (check_preconditions env s2) as [[[[] | e] s3] t3] eqn:Hk.
    + rewrite !(bind_ok_after _ _ _ _ _ _ Hk). simpl.
      rewrite app_nil_r, after_after. reflexivity.
    + rewrite !(bind_raise _ _ _ _ _ _ Hk). reflexivity.
  - reflexivity.
Qed.

(** ** The steps of [normalize], computed *)

Lemma force_download_flags_eq s :
  force_download_flags (W := W) s =
  (Ok tt,
   (if truthy (download_dir (st_options s)) then
      mk_state (set_ignore_installed true (set_no_install true (st_options s)))
        (st_world s)
    else s),
   []).
Proof.
  unfold force_download_flags. rewrite bind_options.
  destruct (truthy (download_dir (st_options s))); reflexivity.
Qed.

Lemma resolve_dirs_eq s :
  resolve_dirs env s =
  (Ok tt,
   mk_state
     (set_src_dir (abspath env (st_world s) (src_dir (st_options s)))
        (set_build_dir (abspath env (st_world s) (build_dir (st_options s)))
           (st_options s)))
     (st_world s),
   []).
Proof. reflexivity. Qed.

Lemma user_site_option_eq aliased l s :
  user_site_option env aliased l s =
  if use_user_site (st_options s) then
    if virtualenv_no_global env (st_world s) then
      (Raise (InstallationError user_site_msg), s, [])
    else
      (Ok (l ++ ["--user"]),
       (if aliased then
          mk_state (set_install_options (Some (l ++ ["--user"])) (st_options s))
            (st_world s)
        else s),
       [])
  else (Ok l, s, []).
Proof.
  unfold user_site_option. rewrite bind_options.
  destruct (use_user_site (st_options s)); [ | reflexivity ].
  rewrite bind_query.
  destruct (virtualenv_no_global env (st_world s)); [ reflexivity | ].
  destruct aliased; reflexivity.
Qed.

Lemma stage_target_none aliased l s :
  truthy (target_dir (st_options s)) = false ->
  stage_target env aliased l s = (Ok (l, None), s, []).
Proof.
  intros H. unfold stage_target. rewrite bind_options.
  destruct (target_dir (st_options s)) as [[| c p] |]; simpl in H;
    try discriminate; reflexivity.
Qed.

Lemma stage_target_some aliased l s c p :
  target_dir (st_options s) = Some (String c p) ->
  stage_target env aliased l s =
  match mkdtemp env (st_world s) with
  | (inl e, w1) =>
      (Raise e, mk_state (set_ignore_installed true (st_options s)) w1, [EvMkdtemp])
  | (inr tmp, w1) =>
      let d := abspath env w1 (String c p) in
      let o1 := set_target_dir (Some d) (set_ignore_installed true (st_options s)) in
      if path_exists env w1 d && negb (path_isdir env w1 d) then
        (Raise (CommandError target_msg), mk_state o1 w1, [EvMkdtemp])
      else
        (Ok (l ++ ["--home=" +++ tmp], Some tmp),
         mk_state
           (if aliased then set_install_options (Some (l ++ ["--home=" +++ tmp])) o1
            else o1) w1,
         [EvMkdtemp])
  end.
Proof.
  intros H. unfold stage_target. rewrite bind_options, H.
  unfold bind, set_options, call, call_silent, emit, query, bind. simpl.
  destruct (mkdtemp env (st_world s)) as [[e | tmp] w1]; simpl; [ reflexivity | ].
  destruct (path_exists env w1 (abspath env w1 (String c p))
            && negb (path_isdir env w1 (abspath env w1 (String c p)))); simpl;
    [ reflexivity | ].
  destruct aliased; reflexivity.
Qed.

Lemma effective_index_urls_eq s :
  effective_index_urls (W := W) s =
  if no_index (st_options s) then
    (Ok [], s,
     [EvNotify ("Ignoring indexes: "
                +++ String.concat "," (index_url (st_options s)
                                         :: extra_index_urls (st_options s)))])
  else (Ok (index_url (st_options s) :: extra_index_urls (st_options s)), s, []).
Proof.
  unfold effective_index_urls. rewrite bind_options.
  destruct (no_index (st_options s)); reflexivity.
Qed.

(** With a download directory given, [normalize] behaves as if the two flags
    had been set by the caller. *)
Lemma normalize_forced s :
  truthy (download_dir (st_options s)) = true ->
  normalize env s =
  normalize env
    (mk_state (set_ignore_installed true (set_no_install true (st_options s)))
       (st_world s)).
Proof.
  intros H. unfold normalize.
  rewrite !(bind_ok_after _ _ _ _ _ _ (force_download_flags_eq _)).
  simpl. rewrite H. reflexivity.
Qed.

(** The first call of [collect] builds the requirement set from the options
    as they stand; the calls that follow are the requirement sources. *)
Lemma collect_trace args plan s :
  exists t,
    snd (collect env args plan s)
    = EvNewRequirementSet (requirement_set_args (st_options s)) :: t
    /\ forallb is_source t = true.
Proof.
  unfold collect. rewrite bind_options. unfold call at 1.
  rewrite bind_assoc, bind_emit.
  match goal with
  | |- context [after _ (bind (call_silent ?op) ?k s)] =>
      exists (snd (bind (call_silent op) k s)); split; [ reflexivity | ]
  end.
  apply emits_apply. unfold add. repeat emits_step.
Qed.

End Steps.

(** * Counting calls *)

Lemma count_app p t1 t2 : count p (t1 ++ t2) = count p t1 + count p t2.
Proof. unfold count. rewrite filter_app, length_app. reflexivity. Qed.

Lemma count_none p Q t :
  (forall e, Q e = true -> p e = false) ->
  forallb Q t = true -> count p t = 0.
Proof.
  intros HQ. unfold count. induction t as [| e t IH]; simpl; [ reflexivity | ].
  intros H. apply andb_true_iff in H as [He Ht].
  rewrite (HQ e He). auto.
Qed.

Lemma class_of_member (P : event -> bool) (t : list event) (e : event) :
  forallb P t = true -> In e t -> P e = true.
Proof. intros H Hin. rewrite forallb_forall in H. auto. Qed.

(** * The claims about the first steps *)

Section FirstSteps.

Context {W : Type}.
Variable env : Environment W.
Variable self : Command.

Lemma normalize_download_flags s :
  truthy (download_dir (st_options s)) = true ->
  no_install (st_options (snd (fst (normalize env s)))) = true
  /\ ignore_installed (st_options (snd (fst (normalize env s)))) = true
  /\ download_dir (st_options (snd (fst (normalize env s))))
     = download_dir (st_options s).
Proof.
  intros H. rewrite (normalize_forced env s H).
  apply (preserves_apply
           (fun o => no_install o = true /\ ignore_installed o = true
                     /\ download_dir o = download_dir (st_options s))).
  - apply normalize_preserves; simpl; intuition.
  - simpl. auto.
Qed.

(** Every requirement set is built from the options as [normalize] left
    them. *)
Lemma run_new_requirement_set args s a :
  In (EvNewRequirementSet a) (snd (run env self args s)) ->
  a = requirement_set_args (st_options (snd (fst (normalize env s)))).
Proof.
  unfold run.
  pose proof (normalize_emits env s) as Hnorm.
  destruct (normalize env s) as [[[plan | e] s1] t1] eqn:Hn; simpl in Hnorm.
  2: { rewrite (bind_raise _ _ _ _ _ _ Hn). simpl. intros Hin.
       apply (class_of_member is_normalize) in Hin; [ discriminate | exact Hnorm ]. }
  rewrite (bind_ok_after _ _ _ _ _ _ Hn). simpl. intros Hin.
  apply in_app_or in Hin as [Hin | Hin].
  { apply (class_of_member is_normalize) in Hin; [ discriminate | exact Hnorm ]. }
  destruct (collect_trace env args plan s1) as (t2 & Ht2 & Hsrc).
  destruct (collect env args plan s1) as [[[finder | e] s2] t2'] eqn:Hc;
    simpl in Ht2; subst t2'.
  - rewrite (bind_ok_after _ _ _ _ _ _ Hc) in Hin. simpl in Hin.
    destruct Hin as [Heq | Hin]; [ congruence | ].
    apply in_app_or in Hin as [Hin | Hin].
    + apply (class_of_member is_source) in Hin; [ discriminate | exact Hsrc ].
    + apply (class_of_member (fun e => is_warn e || is_late e)) in Hin;
        [ discriminate | apply conclude_emits ].
  - rewrite (bind_raise _ _ _ _ _ _ Hc) in Hin. simpl in Hin.
    destruct Hin as [Heq | Hin]; [ congruence | ].
    apply (class_of_member is_source) in Hin; [ discriminate | exact Hsrc ].
Qed.

(** C1: when a download directory is given, [no_install] and
    [ignore_installed] are true once the first step of [run] is over, whether
    it returns or raises, and that step calls nothing of the requirement
    collector; they are still true when [run] ends, and the requirement set,
    if one is built, is built with [ignore_installed] true and that download
    directory. *)
Theorem download_dir_forces_flags args s :
  truthy (download_dir (st_options s)) = true ->
  (no_install (st_options (snd (fst (normalize env s)))) = true
   /\ ignore_installed (st_options (snd (fst (normalize env s)))) = true
   /\ count is_collect (snd (normalize env s)) = 0)
  /\ (no_install (st_options (snd (fst (run env self args s)))) = true
      /\ ignore_installed (st_options (snd (fst (run env self args s)))) = true
      /\ forall a, In (EvNewRequirementSet a) (snd (run env self args s)) ->
                   rs_ignore_installed a = true
                   /\ rs_download_dir a = download_dir (st_options s)).
Proof.
  intros H.
  destruct (normalize_download_flags s H) as (Hni & Hii & Hdl).
  split; [ split; [ exact Hni | split; [ exact Hii | ] ] | ].
  - apply count_none with (Q := is_normalize); [ ev_cases | ].
    apply normalize_emits.
  - assert (Hrun :
      no_install (st_options (snd (fst (run env self args s)))) = true
      /\ ignore_installed (st_options (snd (fst (run env self args s)))) = true).
    { unfold run at 1 2.
      destruct (normalize env s) as [[[plan | e] s1] t1] eqn:Hn; simpl in *.
      - rewrite (bind_ok_after _ _ _ _ _ _ Hn). simpl.
        apply (preserves_apply
                 (fun o => no_install o = true /\ ignore_installed o = true)).
        + apply preserves_bind; [ apply collect_preserves | intros finder ].
          apply conclude_preserves.
        + auto.
      - rewrite (bind_raise _ _ _ _ _ _ Hn). simpl. auto. }
    destruct Hrun as [Hr1 Hr2].
    split; [ exact Hr1 | split; [ exact Hr2 | ] ].
    intros a Hin. apply run_new_requirement_set in Hin. subst a. simpl.
    auto.
Qed.

(** C3: when the requirement set is empty once the three sources have been
    read, [run] warns once, returns [None] and calls none of
    [prepare_files], [locate_files], [install] and [cleanup_files]. *)
Theorem empty_collection_soft_exit args s plan finder s2 t :
  gather env args s = (Ok (plan, finder), s2, t) ->
  has_requirements env (st_world s2) = false ->
  run env self args s
  = (Ok RetNone, s2, t ++ [EvWarn (no_requirement_msg self (st_options s2))])
  /\ count is_warn (snd (run env self args s)) = 1
  /\ count is_prepare (snd (run env self args s)) = 0
  /\ count is_locate (snd (run env self args s)) = 0
  /\ count is_install (snd (run env self args s)) = 0
  /\ count is_cleanup (snd (run env self args s)) = 0.
Proof.
  intros Hg Hhas.
  assert (Hrun : run env self args s
                 = (Ok RetNone, s2,
                    t ++ [EvWarn (no_requirement_msg self (st_options s2))])).
  { rewrite run_gather, Hg, (conclude_empty env self plan finder s2 Hhas).
    reflexivity. }
  pose proof (gather_emits env args s) as Ht. rewrite Hg in Ht. simpl in Ht.
  rewrite Hrun. simpl. rewrite !count_app.
  rewrite (count_none is_warn is_gather t), (count_none is_prepare is_gather t),
    (count_none is_locate is_gather t), (count_none is_install is_gather t),
    (count_none is_cleanup is_gather t); try assumption; try ev_cases.
  repeat split; reflexivity.
Qed.



Lemma gather_inv args s plan finder s2 t :
  gather env args s = (Ok (plan, finder), s2, t) ->
  exists s1 t1 t2,
    normalize env s = (Ok plan, s1, t1)
    /\ collect env args plan s1 = (Ok finder, s2, t2)
    /\ t = t1 ++ t2.
Proof.
  unfold gather. intros H.
  apply bind_inv in H as [(plan' & s1 & t1 & t2 & Hn & H & ->) | (e & _ & He)];
    [ | discriminate He ].
  apply bind_inv in H as [(f & s2' & t2' & t3 & Hc & H & ->) | (e & _ & He)];
    [ | discriminate He ].
  unfold ret in H. injection H as <- <- <- <-.
  exists s1, t1, t2'. rewrite app_nil_r. auto.
Qed.

Lemma gather_use_user_site args s :
  use_user_site (st_options (snd (fst (gather env args s))))
  = use_user_site (st_options s).
Proof.
  apply (preserves_apply
           (fun o => use_user_site o = use_user_site (st_options s))).
  - apply gather_preserves, normalize_preserves; simpl; auto.
  - reflexivity.
Qed.

(** C10, as amended: with [use_user_site] set on an interpreter older than
    2.6, a run whose first step and requirement collection complete raises
    [InstallationError] with the message about Python 2.6 when the
    requirement set is not empty, having called nothing after the
    collection; with an empty requirement set it takes the early return
    instead. *)
Theorem old_python_rejected_after_collection args s plan finder s2 t :
  gather env args s = (Ok (plan, finder), s2, t) ->
  use_user_site (st_options s) = true ->
  version_lt (version_info env) 2 6 = true ->
  run env self args s
  = (if has_requirements env (st_world s2) then
       (Raise (InstallationError old_python_msg), s2, t)
     else
       (Ok RetNone, s2, t ++ [EvWarn (no_requirement_msg self (st_options s2))]))
  /\ count is_acquire t = 0
  /\ count is_new_requirement_set t = 1.
Proof.
  intros Hg Hu Hv.
  pose proof (gather_use_user_site args s) as Hu2. rewrite Hg, Hu in Hu2.
  simpl in Hu2.
  split; [ | split ].
  - rewrite run_gather, Hg.
    destruct (has_requirements env (st_world s2)) eqn:Hhas.
    + rewrite (conclude_nonempty env self plan finder s2 Hhas).
      assert (Hk : check_preconditions env s2
                   = (Raise (InstallationError old_python_msg), s2, [])).
      { unfold check_preconditions. rewrite bind_options, Hu2, Hv. reflexivity. }
      unfold finish. rewrite (bind_raise _ _ _ _ _ _ Hk).
      unfold after. simpl. rewrite app_nil_r. reflexivity.
    + rewrite (conclude_empty env self plan finder s2 Hhas). reflexivity.
  - pose proof (gather_emits env args s) as Ht. rewrite Hg in Ht.
    apply count_none with (Q := is_gather); [ ev_cases | exact Ht ].
  - destruct (gather_inv args s plan finder s2 t Hg)
      as (s1 & t1 & t2 & Hn & Hc & ->).
    pose proof (normalize_emits env s) as Hnorm. rewrite Hn in Hnorm.
    destruct (collect_trace env args plan s1) as (t' & Ht' & Hsrc).
    rewrite Hc in Ht'. simpl in Ht'. subst t2.
    rewrite count_app. change (EvNewRequirementSet ?a :: t') with
      ([EvNewRequirementSet a] ++ t'). rewrite count_app.
    rewrite (count_none is_new_requirement_set is_normalize t1),
      (count_none is_new_requirement_set is_source t');
      try assumption; try ev_cases.
    reflexivity.
Qed.

Lemma user_site_option_ok aliased l s l1 s1 t :
  user_site_option env aliased l s = (Ok l1, s1, t) ->
  st_world s1 = st_world s
  /\ target_dir (st_options s1) = target_dir (st_options s)
  /\ t = [].
Proof.
  rewrite user_site_option_eq.
  destruct (use_user_site (st_options s));
    [ destruct (virtualenv_no_global env (st_world s)); [ discriminate | ] | ];
    destruct aliased; intros H; injection H as <- <- <-; auto.
Qed.

Lemma stage_target_ok aliased l s locals s2 t c p :
  stage_target env aliased l s = (Ok locals, s2, t) ->
  target_dir (st_options s) = Some (String c p) ->
  exists tmp,
    mkdtemp env (st_world s) = (inr tmp, st_world s2)
    /\ locals = (l ++ ["--home=" +++ tmp], Some tmp)
    /\ ignore_installed (st_options s2) = true
    /\ target_dir (st_options s2)
       = Some (abspath env (st_world s2) (String c p))
    /\ t = [EvMkdtemp].
Proof.
  intros H Ht. rewrite (stage_target_some env aliased l s c p Ht) in H.
  destruct (mkdtemp env (st_world s)) as [[e | tmp] w1]; [ discriminate | ].
  simpl in H.
  destruct (path_exists env w1 (abspath env w1 (String c p))
            && negb (path_isdir env w1 (abspath env w1 (String c p))));
    [ discriminate | ].
  injection H as <- <- <-. exists tmp.
  destruct aliased; simpl; auto.
Qed.

Lemma effective_index_urls_ok s urls s3 t :
  effective_index_urls (W := W) s = (Ok urls, s3, t) ->
  s3 = s /\ forallb is_notify t = true.
Proof.
  rewrite effective_index_urls_eq.
  destruct (no_index (st_options s)); intros H; injection H as <- <- <-; auto.
Qed.

(** What a successful [normalize] has done when a target directory is
    given. *)
Lemma normalize_target s plan s1 t1 c p :
  normalize env s = (Ok plan, s1, t1) ->
  target_dir (st_options s) = Some (String c p) ->
  exists tmp t',
    mkdtemp env (st_world s) = (inr tmp, st_world s1)
    /\ plan_temp_target_dir plan = Some tmp
    /\ (exists l, plan_install_options plan = l ++ ["--home=" +++ tmp])
    /\ ignore_installed (st_options s1) = true
    /\ target_dir (st_options s1)
       = Some (abspath env (st_world s1) (String c p))
    /\ t1 = EvMkdtemp :: t'
    /\ forallb is_notify t' = true.
Proof.
  intros H Ht. unfold normalize in H.
  rewrite (bind_ok_after _ _ _ _ _ _ (force_download_flags_eq s)), after_nil in H.
  rewrite (bind_ok_after _ _ _ _ _ _ (resolve_dirs_eq env _)), after_nil in H.
  rewrite bind_options in H.
  apply bind_inv in H as [(l1 & sa & ta & tb & Hu & H & ->) | (e & _ & He)];
    [ | discriminate He ].
  apply user_site_option_ok in Hu as (Hwa & Hta & ->).
  apply bind_inv in H as [(locals & sb & tc & td & Hs & H & ->) | (e & _ & He)];
    [ | discriminate He ].
  assert (Htb : target_dir (st_options sa) = Some (String c p)).
  { rewrite Hta. destruct (truthy (download_dir (st_options s))); exact Ht. }
  destruct (stage_target_ok _ _ _ _ _ _ _ _ Hs Htb)
    as (tmp & Hmk & -> & Hii & Htd & ->).
  rewrite bind_options in H.
  apply bind_inv in H as [(urls & sc & te & tf & Hi & H & ->) | (e & _ & He)];
    [ | discriminate He ].
  apply effective_index_urls_ok in Hi as (-> & Hnot).
  unfold ret in H. injection H as <- <- <-.
  exists tmp, (te ++ []). simpl.
  rewrite Hwa in Hmk.
  assert (Hw0 : st_world
                  (if truthy (download_dir (st_options s))
                   then mk_state
                          (set_ignore_installed true
                             (set_no_install true (st_options s)))
                          (st_world s)
                   else s) = st_world s)
    by (destruct (truthy (download_dir (st_options s))); reflexivity).
  simpl in Hmk. rewrite Hw0 in Hmk.
  repeat split; try assumption.
  - eexists. reflexivity.
  - rewrite app_nil_r. exact Hnot.
Qed.

Lemma truthy_some (o : option string) :
  truthy o = true -> exists c p, o = Some (String c p).
Proof.
  destruct o as [[| c p] |]; simpl; try discriminate. intros _. eauto.
Qed.

(** C9: when a target directory is given and the first step of [run]
    returns, [ignore_installed] is true, [tempfile.mkdtemp] has been called
    once, the local [temp_target_dir] is the directory it returned and the
    last of [install_options] is [--home=] followed by that directory; in
    the whole run every acquisition call comes after the call of
    [mkdtemp]. *)
Theorem target_dir_stages_redirect args s plan s1 t1 :
  normalize env s = (Ok plan, s1, t1) ->
  truthy (target_dir (st_options s)) = true ->
  ignore_installed (st_options s1) = true
  /\ (exists tmp,
        mkdtemp env (st_world s) = (inr tmp, st_world s1)
        /\ plan_temp_target_dir plan = Some tmp
        /\ exists l, plan_install_options plan = l ++ ["--home=" +++ tmp])
  /\ count is_mkdtemp t1 = 1
  /\ count is_acquire t1 = 0
  /\ (forall pre e post,
        snd (run env self args s) = pre ++ e :: post ->
        is_acquire e = true -> In EvMkdtemp pre)
  /\ ignore_installed (st_options (snd (fst (run env self args s)))) = true.
Proof.
  intros Hn Ht.
  destruct (truthy_some _ Ht) as (c & p & Htd).
  destruct (normalize_target s plan s1 t1 c p Hn Htd)
    as (tmp & t' & Hmk & Htmp & Hio & Hii & _ & -> & Hnot).
  split; [ exact Hii | ].
  split; [ exists tmp; auto | ].
  split.
  { change (EvMkdtemp :: t') with ([EvMkdtemp] ++ t'). rewrite count_app.
    rewrite (count_none is_mkdtemp is_notify t'); try assumption; try ev_cases.
    reflexivity. }
  split.
  { change (EvMkdtemp :: t') with ([EvMkdtemp] ++ t'). rewrite count_app.
    rewrite (count_none is_acquire is_notify t'); try assumption; try ev_cases.
    reflexivity. }
  unfold run. rewrite !(bind_ok_after _ _ _ _ _ _ Hn). simpl.
  split.
  - intros pre e post Heq Hacq.
    change (EvMkdtemp :: t' ++ ?r) with ((EvMkdtemp :: t') ++ r) in Heq.
    apply app_eq_app in Heq as (l & [[Hl Hr] | [Hl Hr]]).
    + destruct l as [| x l].
      * rewrite app_nil_r in Hl. rewrite <- Hl. left. reflexivity.
      * simpl in Hr. injection Hr as <- _.
        assert (Hin : In e (EvMkdtemp :: t')).
        { rewrite Hl. apply in_or_app. right. left. reflexivity. }
        pose proof (normalize_emits env s) as Hnorm. rewrite Hn in Hnorm.
        apply (class_of_member is_normalize) in Hin; [ | exact Hnorm ].
        destruct e; discriminate.
    + rewrite Hl. left. reflexivity.
  - apply (preserves_apply (fun o => ignore_installed o = true)).
    + apply preserves_bind; [ apply collect_preserves | intros finder ].
      apply conclude_preserves.
    + exact Hii.
Qed.

End FirstSteps.

(** * The claims about acquisition and what follows *)

Section LastSteps.

Context {W : Type}.
Variable env : Environment W.
Variable self : Command.

Lemma call_inv {A : Type} e (op : ext W A) s r s1 t :
  call e op s = (r, s1, t) ->
  t = [e]
  /\ st_options s1 = st_options s
  /\ op (st_world s)
     = (match r with Ok a => inr a | Raise x => inl x end, st_world s1).
Proof.
  unfold call. rewrite bind_emit. unfold call_silent, after.
  destruct (op (st_world s)) as [[x | a] w]; simpl;
    intros H; injection H as <- <- <-; auto.
Qed.

Lemma call_trace {A : Type} e (op : ext W A) s : snd (call e op s) = [e].
Proof.
  destruct (call e op s) as [[r s1] t] eqn:H.
  apply call_inv in H as (-> & _). reflexivity.
Qed.

Lemma bind_trace {A B : Type} (m : M W A) (k : A -> M W B) s :
  snd (bind m k s)
  = snd (m s)
    ++ match m s with
       | (Ok a, s1, _) => snd (k a s1)
       | (Raise _, _, _) => []
       end.
Proof.
  unfold bind. destruct (m s) as [[[a | e] s1] t1]; simpl.
  - destruct (k a s1) as [[r s2] t2]. reflexivity.
  - rewrite app_nil_r. reflexivity.
Qed.

(** After [normalize] the options object is only read. *)
Lemma options_kept {A : Type} (m : M W A) s :
  (forall I, preserves I m) -> st_options (snd (fst (m s))) = st_options s.
Proof.
  intros H. apply (preserves_apply (fun o => o = st_options s)); auto.
Qed.

Lemma acquire_trace finder s :
  snd (acquire env self finder s)
  = [if no_download (st_options s) then EvLocateFiles
     else EvPrepareFiles finder (bundle self) (bundle self)].
Proof.
  unfold acquire. rewrite bind_options.
  destruct (no_download (st_options s)); simpl; apply call_trace.
Qed.

Lemma cleanup_trace s :
  snd (cleanup env self s)
  = if negb (no_install (st_options s)) || truthy (download_dir (st_options s))
    then [EvCleanupFiles (bundle self)] else [].
Proof.
  unfold cleanup. rewrite bind_options.
  destruct (negb (no_install (st_options s))
            || truthy (download_dir (st_options s))); simpl;
    [ apply call_trace | reflexivity ].
Qed.

(** The three tests of lines 270, 276 and 281 select by priority. *)
Lemma run_mode_eq plan s :
  run_mode env self plan s
  = run_selected env self plan (mode_by_priority self (st_options s)) s.
Proof.
  unfold run_mode, mode_by_priority. rewrite bind_options.
  destruct (bundle self), (no_install (st_options s)); reflexivity.
Qed.

Lemma install_mode_trace plan s :
  exists rest,
    snd (install_mode env plan s)
    = EvInstall (plan_install_options plan) (plan_global_options plan)
        (root_path (st_options s)) :: rest
    /\ forallb is_notify rest = true.
Proof.
  unfold install_mode. rewrite bind_options, bind_trace, call_trace.
  eexists. split; [ reflexivity | ].
  destruct (call _ _ s) as [[[a | e] s1] t1]; [ | reflexivity ].
  apply emits_apply. repeat emits_step.
Qed.

Lemma bundle_mode_trace s :
  exists rest,
    snd (bundle_mode env self s) = EvCreateBundle (bundle_filename self) :: rest
    /\ forallb is_notify rest = true.
Proof.
  unfold bundle_mode. rewrite bind_trace, call_trace.
  eexists. split; [ reflexivity | ].
  destruct (call _ _ s) as [[[a | e] s1] t1]; [ | reflexivity ].
  apply emits_apply. repeat emits_step.
Qed.

Lemma download_report_emits : emits is_notify (download_report env).
Proof. unfold download_report. repeat emits_step. Qed.

(** The calls of each outcome mode, in full. *)








(** A run that returns the requirement set has gone through every step. *)
Lemma run_completed_inv args s s' t :
  run env self args s = (Ok RetRequirementSet, s', t) ->
  exists plan finder s3 t0 s4 t4 s5 t5 s6 t6 t7,
    prologue env self args s = (Ok (Some (plan, finder)), s3, t0)
    /\ acquire env self finder s3 = (Ok tt, s4, t4)
    /\ run_mode env self plan s4 = (Ok tt, s5, t5)
    /\ cleanup env self s5 = (Ok tt, s6, t6)
    /\ relocate env plan s6 = (Ok tt, s', t7)
    /\ t = t0 ++ t4 ++ t5 ++ t6 ++ t7.
Proof.
  rewrite run_prologue.
  destruct (prologue env self args s) as [[[[[plan finder] | ] | e] s3] t0];
    try discriminate.
  unfold after. intros H.
  destruct (post_checks env self plan finder s3) as [[r sx] tx] eqn:Hpc.
  simpl in H. injection H as -> -> <-.
  unfold post_checks in Hpc.
  apply bind_inv in Hpc as [([] & s4 & t4 & ta & Ha & H & ->) | (e & _ & He)];
    [ | discriminate He ].
  unfold post_acquire in H.
  apply bind_inv in H as [([] & s5 & t5 & tb & Hm & H & ->) | (e & _ & He)];
    [ | discriminate He ].
  unfold post_mode in H.
  apply bind_inv in H as [([] & s6 & t6 & tc & Hc & H & ->) | (e & _ & He)];
    [ | discriminate He ].
  unfold post_cleanup in H.
  apply bind_inv in H as [([] & s7 & t7 & td & Hr & H & ->) | (e & _ & He)];
    [ | discriminate He ].
  unfold ret in H. injection H as <- <-.
  exists plan, finder, s3, t0, s4, t4, s5, t5, s6, t6, t7.
  rewrite app_nil_r. auto 10.
Qed.

Lemma step_options {A : Type} (m : M W A) s r s1 t :
  (forall I, preserves I m) -> m s = (r, s1, t) -> st_options s1 = st_options s.
Proof.
  intros Hp H. pose proof (options_kept m s Hp) as Hk. rewrite H in Hk.
  exact Hk.
Qed.

(** C4, as amended: in a run that returns the requirement set, that is a
    run that returns and has not taken the early return on an empty
    requirement set, [cleanup_files] is called once when [no_install] is
    false or a download directory is given, and not at all otherwise. *)
Theorem cleanup_iff_mode_when_completed args s s' t :
  run env self args s = (Ok RetRequirementSet, s', t) ->
  count is_cleanup t
  = (if negb (no_install (st_options s')) || truthy (download_dir (st_options s'))
     then 1 else 0)
  /\ (0 < count is_cleanup t
      <-> (no_install (st_options s') = false
           \/ truthy (download_dir (st_options s')) = true)).
Proof.
  intros H.
  destruct (run_completed_inv args s s' t H)
    as (plan & finder & s3 & t0 & s4 & t4 & s5 & t5 & s6 & t6 & t7
        & Hp & Ha & Hm & Hc & Hr & ->).
  pose proof (prologue_emits env self args s) as Ht0. rewrite Hp in Ht0.
  pose proof (acquire_emits env self finder s3) as Ht4. rewrite Ha in Ht4.
  pose proof (run_mode_emits env self plan s4) as Ht5. rewrite Hm in Ht5.
  pose proof (relocate_emits env plan s6) as Ht7. rewrite Hr in Ht7.
  pose proof (cleanup_trace s5) as Ht6. rewrite Hc in Ht6.
  simpl in Ht0, Ht4, Ht5, Ht6, Ht7.
  assert (Ho : st_options s' = st_options s5).
  { rewrite (step_options _ _ _ _ _ (fun I => relocate_preserves env I plan) Hr).
    apply (step_options _ _ _ _ _ (fun I => cleanup_preserves env self I) Hc). }
  rewrite Ho. rewrite !count_app.
  rewrite (count_none is_cleanup is_early t0),
    (count_none is_cleanup is_acquire t4),
    (count_none is_cleanup is_mode t5),
    (count_none is_cleanup is_relocate t7);
    try assumption; try ev_cases.
  subst t6.
  destruct (no_install (st_options s5)), (truthy (download_dir (st_options s5)));
    simpl; (split; [ reflexivity | ]); split; intros Hx;
    try lia; try (destruct Hx; discriminate); auto.
Qed.





Lemma post_checks_split_mode plan finder s :
  post_checks env self plan finder s
  = bind (acquire_and_run_mode env self plan finder)
      (fun _ => post_mode env self plan) s.
Proof.
  unfold post_checks, post_acquire, acquire_and_run_mode.
  rewrite bind_assoc. reflexivity.
Qed.

Lemma post_checks_split_cleanup plan finder s :
  post_checks env self plan finder s
  = bind (up_to_cleanup env self plan finder)
      (fun _ => post_cleanup env plan) s.
Proof.
  rewrite post_checks_split_mode. unfold up_to_cleanup, post_mode.
  rewrite bind_assoc. reflexivity.
Qed.

Lemma acquire_and_run_mode_emits plan finder :
  emits (fun e => is_acquire e || is_mode e)
    (acquire_and_run_mode env self plan finder).
Proof.
  unfold acquire_and_run_mode. apply emits_bind; [ | intros ? ].
  - apply emits_weaken with (P := is_acquire); [ ev_cases | apply acquire_emits ].
  - apply emits_weaken with (P := is_mode); [ ev_cases | apply run_mode_emits ].
Qed.

Lemma up_to_cleanup_emits plan finder :
  emits (fun e => is_acquire e || is_mode e || is_cleanup e)
    (up_to_cleanup env self plan finder).
Proof.
  unfold up_to_cleanup. apply emits_bind; [ | intros ? ].
  - apply emits_weaken with (P := fun e => is_acquire e || is_mode e);
      [ ev_cases | apply acquire_and_run_mode_emits ].
  - apply emits_weaken with (P := is_cleanup); [ ev_cases | apply cleanup_emits ].
Qed.

Lemma relocate_entries_emits plan target :
  emits is_relocate_entry (relocate_entries env plan target).
Proof. unfold relocate_entries, move_entries. repeat emits_step. Qed.

(** C2, as amended: [run] has no handler, so an error is surfaced at once.
    When the acquisition or the outcome mode raises, [run] raises the same
    error with nothing called after the failing call: neither
    [cleanup_files] nor the [rmtree] of the temporary home is called.  When
    the relocation raises before its last call, [run] raises the same error
    and [rmtree] is not called. *)
Theorem failure_skips_cleanup args s plan finder s3 t0 :
  prologue env self args s = (Ok (Some (plan, finder)), s3, t0) ->
  (forall e s5 t,
      acquire_and_run_mode env self plan finder s3 = (Raise e, s5, t) ->
      run env self args s = (Raise e, s5, t0 ++ t)
      /\ count is_cleanup (t0 ++ t) = 0
      /\ count is_rmtree (t0 ++ t) = 0)
  /\ (forall s6 t6 c p e s7 t7,
        up_to_cleanup env self plan finder s3 = (Ok tt, s6, t6) ->
        target_dir (st_options s6) = Some (String c p) ->
        relocate_entries env plan (String c p) s6 = (Raise e, s7, t7) ->
        run env self args s = (Raise e, s7, t0 ++ t6 ++ t7)
        /\ count is_rmtree (t0 ++ t6 ++ t7) = 0).
Proof.
  intros Hp.
  pose proof (prologue_emits env self args s) as Ht0. rewrite Hp in Ht0.
  simpl in Ht0.
  split.
  - intros e s5 t Hf.
    pose proof (acquire_and_run_mode_emits plan finder s3) as Ht.
    rewrite Hf in Ht. simpl in Ht.
    split; [ | split ].
    + rewrite run_prologue, Hp, post_checks_split_mode.
      rewrite (bind_raise _ _ _ _ _ _ Hf). reflexivity.
    + rewrite count_app.
      rewrite (count_none is_cleanup is_early t0),
        (count_none is_cleanup (fun e => is_acquire e || is_mode e) t);
        try assumption; try ev_cases. reflexivity.
    + rewrite count_app.
      rewrite (count_none is_rmtree is_early t0),
        (count_none is_rmtree (fun e => is_acquire e || is_mode e) t);
        try assumption; try ev_cases. reflexivity.
  - intros s6 t6 c p e s7 t7 Hu Htd Hf.
    pose proof (up_to_cleanup_emits plan finder s3) as Ht6.
    rewrite Hu in Ht6. simpl in Ht6.
    pose proof (relocate_entries_emits plan (String c p) s6) as Ht7.
    rewrite Hf in Ht7. simpl in Ht7.
    split.
    + rewrite run_prologue, Hp, post_checks_split_cleanup.
      rewrite (bind_ok_after _ _ _ _ _ _ Hu).
      assert (Hr : relocate env plan s6 = (Raise e, s7, t7)).
      { unfold relocate. rewrite bind_options, Htd.
        apply bind_raise, Hf. }
      unfold post_cleanup. rewrite (bind_raise _ _ _ _ _ _ Hr).
      reflexivity.
    + rewrite !count_app.
      rewrite (count_none is_rmtree is_early t0),
        (count_none is_rmtree
           (fun e => is_acquire e || is_mode e || is_cleanup e) t6),
        (count_none is_rmtree is_relocate_entry t7);
        try assumption; try ev_cases. reflexivity.
Qed.


End LastSteps.

(** * Further properties of [run] *)

Section More.

Context {W : Type}.
Variable env : Environment W.
Variable self : Command.

Lemma user_site_option_any aliased l s r s1 t :
  user_site_option env aliased l s = (r, s1, t) ->
  t = []
  /\ st_world s1 = st_world s
  /\ st_options s1
     = (if aliased && use_user_site (st_options s)
           && negb (virtualenv_no_global env (st_world s))
        then set_install_options (Some (l ++ ["--user"])) (st_options s)
        else st_options s)
  /\ match r with
     | Ok l1 =>
         l1 = l ++ (if use_user_site (st_options s) then ["--user"] else [])
         /\ use_user_site (st_options s)
            && virtualenv_no_global env (st_world s) = false
     | Raise e =>
         e = InstallationError user_site_msg
         /\ use_user_site (st_options s) = true
         /\ virtualenv_no_global env (st_world s) = true
     end.
Proof.
  rewrite user_site_option_eq.
  destruct (use_user_site (st_options s)),
    (virtualenv_no_global env (st_world s)), aliased;
    intros H; injection H as <- <- <-; simpl; rewrite ?app_nil_r;
    repeat split; reflexivity.
Qed.

Lemma stage_target_full aliased l s locals s2 t c p :
  stage_target env aliased l s = (Ok locals, s2, t) ->
  target_dir (st_options s) = Some (String c p) ->
  exists tmp,
    mkdtemp env (st_world s) = (inr tmp, st_world s2)
    /\ locals = (l ++ ["--home=" +++ tmp], Some tmp)
    /\ t = [EvMkdtemp]
    /\ st_options s2
       = (if aliased then
            set_install_options (Some (l ++ ["--home=" +++ tmp]))
              (set_target_dir (Some (abspath env (st_world s2) (String c p)))
                 (set_ignore_installed true (st_options s)))
          else
            set_target_dir (Some (abspath env (st_world s2) (String c p)))
              (set_ignore_installed true (st_options s))).
Proof.
  intros H Ht. rewrite (stage_target_some env aliased l s c p Ht) in H.
  destruct (mkdtemp env (st_world s)) as [[e | tmp] w1]; [ discriminate | ].
  simpl in H.
  destruct (path_exists env w1 (abspath env w1 (String c p))
            && negb (path_isdir env w1 (abspath env w1 (String c p))));
    [ discriminate | ].
  injection H as <- <- <-. exists tmp.
  destruct aliased; simpl; auto.
Qed.

(** What a successful [normalize] has done, in terms of the options and the
    world it started from. *)
Lemma normalize_ok_inv s plan s1 t1 :
  normalize env s = (Ok plan, s1, t1) ->
  use_user_site (st_options s) && virtualenv_no_global env (st_world s) = false
  /\ plan_install_options plan
     = or_empty (install_options (st_options s))
       ++ (if use_user_site (st_options s) then ["--user"] else [])
       ++ match plan_temp_target_dir plan with
          | Some tmp => ["--home=" +++ tmp]
          | None => []
          end
  /\ plan_global_options plan = or_empty (global_options (st_options s))
  /\ plan_index_urls plan
     = (if no_index (st_options s) then []
        else index_url (st_options s) :: extra_index_urls (st_options s))
  /\ (if truthy (target_dir (st_options s)) then
        exists tmp,
          mkdtemp env (st_world s) = (inr tmp, st_world s1)
          /\ plan_temp_target_dir plan = Some tmp
      else
        plan_temp_target_dir plan = None
        /\ st_world s1 = st_world s
        /\ target_dir (st_options s1) = target_dir (st_options s))
  /\ install_options (st_options s1)
     = (if opt_list_truthy (install_options (st_options s))
        then Some (plan_install_options plan)
        else install_options (st_options s))
  /\ no_install (st_options s1)
     = no_install (st_options s) || truthy (download_dir (st_options s))
  /\ ignore_installed (st_options s1)
     = ignore_installed (st_options s) || truthy (download_dir (st_options s))
       || truthy (target_dir (st_options s))
  /\ build_dir (st_options s1)
     = abspath env (st_world s) (build_dir (st_options s))
  /\ src_dir (st_options s1) = abspath env (st_world s) (src_dir (st_options s))
  /\ t1 = (if truthy (target_dir (st_options s)) then [EvMkdtemp] else [])
          ++ (if no_index (st_options s) then
                [EvNotify ("Ignoring indexes: "
                           +++ String.concat ","
                                 (index_url (st_options s)
                                  :: extra_index_urls (st_options s)))]
              else []).
Proof.
  intros H. unfold normalize in H.
  rewrite (bind_ok_after _ _ _ _ _ _ (force_download_flags_eq _)), after_nil in H.
  rewrite (bind_ok_after _ _ _ _ _ _ (resolve_dirs_eq env _)), after_nil in H.
  match type of H with
  | bind options _ ?S = _ => remember S as s0 eqn:Hs0
  end.
  assert (Hw0 : st_world s0 = st_world s)
    by (subst s0; destruct (truthy (download_dir (st_options s))); reflexivity).
  assert (Hf : use_user_site (st_options s0) = use_user_site (st_options s)
               /\ install_options (st_options s0) = install_options (st_options s)
               /\ target_dir (st_options s0) = target_dir (st_options s)
               /\ global_options (st_options s0) = global_options (st_options s)
               /\ no_index (st_options s0) = no_index (st_options s)
               /\ index_url (st_options s0) = index_url (st_options s)
               /\ extra_index_urls (st_options s0)
                  = extra_index_urls (st_options s)
               /\ no_install (st_options s0)
                  = no_install (st_options s)
                    || truthy (download_dir (st_options s))
               /\ ignore_installed (st_options s0)
                  = ignore_installed (st_options s)
                    || truthy (download_dir (st_options s))
               /\ build_dir (st_options s0)
                  = abspath env (st_world s) (build_dir (st_options s))
               /\ src_dir (st_options s0)
                  = abspath env (st_world s) (src_dir (st_options s))).
  { subst s0. destruct (truthy (download_dir (st_options s))); simpl;
      rewrite ?orb_true_r, ?orb_false_r; repeat split; reflexivity. }
  destruct Hf as (Fu & Fio & Ftd & Fgo & Fni & Fiu & Feu & Fno & Fii & Fbd & Fsd).
  clear Hs0.
  rewrite bind_options in H.
  apply bind_inv in H as [(l1 & sa & ta & tb & Hu & H & ->) | (e & _ & He)];
    [ | discriminate He ].
  apply user_site_option_any in Hu as (-> & Hwa & Hoa & Hl1 & Hpass).
  apply bind_inv in H as [(locals & sb & tc & td & Hs & H & ->) | (e & _ & He)];
    [ | discriminate He ].
  rewrite bind_options in H.
  apply bind_inv in H as [(urls & sc & te & tf & Hi & H & ->) | (e & _ & He)];
    [ | discriminate He ].
  rewrite effective_index_urls_eq in Hi.
  unfold ret in H. injection H as <- <- <-. simpl.
  rewrite Fu, Hw0 in Hpass. rewrite Fu, Fio in Hl1. rewrite Fu, Fio, Hw0 in Hoa.
  rewrite Hw0 in Hwa.
  split; [ exact Hpass | ].
  assert (Ga : target_dir (st_options sa) = target_dir (st_options s)
               /\ global_options (st_options sa) = global_options (st_options s)
               /\ no_index (st_options sa) = no_index (st_options s)
               /\ index_url (st_options sa) = index_url (st_options s)
               /\ extra_index_urls (st_options sa)
                  = extra_index_urls (st_options s)
               /\ no_install (st_options sa) = no_install (st_options s0)
               /\ ignore_installed (st_options sa)
                  = ignore_installed (st_options s0)
               /\ build_dir (st_options sa) = build_dir (st_options s0)
               /\ src_dir (st_options sa) = src_dir (st_options s0)).
  { rewrite Hoa.
    destruct (opt_list_truthy (install_options (st_options s))
              && use_user_site (st_options s)
              && negb (virtualenv_no_global env (st_world s))); simpl; auto 12. }
  destruct Ga as (Gtd & Ggo & Gni & Giu & Geu & Gno & Gii & Gbd & Gsd).
  assert (Gio : opt_list_truthy (install_options (st_options s)) = false ->
                install_options (st_options sa) = install_options (st_options s)).
  { intros Ha. rewrite Hoa, Ha. simpl. exact Fio. }
  destruct (truthy (target_dir (st_options s))) eqn:Htt.
  - destruct (truthy_some _ Htt) as (c & p & Htd).
    rewrite Htd in Gtd.
    destruct (stage_target_full _ _ _ _ _ _ c p Hs Gtd)
      as (tmp & Hmk & -> & -> & Hob).
    rewrite Fio in Hob.
    assert (Gb : global_options (st_options sb) = global_options (st_options sa)
                 /\ no_index (st_options sb) = no_index (st_options sa)
                 /\ index_url (st_options sb) = index_url (st_options sa)
                 /\ extra_index_urls (st_options sb)
                    = extra_index_urls (st_options sa)
                 /\ no_install (st_options sb) = no_install (st_options sa)
                 /\ build_dir (st_options sb) = build_dir (st_options sa)
                 /\ src_dir (st_options sb) = src_dir (st_options sa)
                 /\ ignore_installed (st_options sb) = true
                 /\ install_options (st_options sb)
                    = (if opt_list_truthy (install_options (st_options s))
                       then Some (l1 ++ ["--home=" +++ tmp])
                       else install_options (st_options sa))).
    { rewrite Hob.
      destruct (opt_list_truthy (install_options (st_options s))); simpl;
        auto 12. }
    destruct Gb as (Bgo & Bni & Biu & Beu & Bno & Bbd & Bsd & Bii & Bio).
    rewrite Bni, Gni, Biu, Giu, Beu, Geu in Hi.
    cbn [fst snd plan_install_options plan_temp_target_dir plan_global_options
           plan_index_urls].
    assert (Hte : urls = (if no_index (st_options s) then []
                          else index_url (st_options s)
                               :: extra_index_urls (st_options s))
                  /\ sc = sb
                  /\ te = (if no_index (st_options s) then
                             [EvNotify ("Ignoring indexes: "
                                        +++ String.concat ","
                                              (index_url (st_options s)
                                               :: extra_index_urls (st_options s)))]
                           else [])).
    { destruct (no_index (st_options s)); injection Hi as <- <- <-; auto. }
    destruct Hte as (-> & -> & ->).
    split; [ rewrite Hl1, <- app_assoc; reflexivity | ].
    split; [ rewrite Bgo, Ggo; reflexivity | ].
    split; [ reflexivity | ].
    split; [ exists tmp; rewrite <- Hwa; auto | ].
    split.
    { rewrite Bio.
      destruct (opt_list_truthy (install_options (st_options s))) eqn:Ha;
        [ reflexivity | apply Gio; reflexivity ]. }
    split; [ rewrite Bno, Gno; exact Fno | ].
    split; [ rewrite Bii, orb_true_r; reflexivity | ].
    split; [ rewrite Bbd, Gbd; exact Fbd | ].
    split; [ rewrite Bsd, Gsd; exact Fsd | ].
    rewrite app_nil_r. reflexivity.
  - assert (Hta : truthy (target_dir (st_options sa)) = false)
      by (rewrite Gtd; exact Htt).
    rewrite (stage_target_none env _ _ _ Hta) in Hs.
    injection Hs as <- <- <-.
    rewrite Gni, Giu, Geu in Hi.
    cbn [fst snd plan_install_options plan_temp_target_dir plan_global_options
           plan_index_urls].
    assert (Hte : urls = (if no_index (st_options s) then []
                          else index_url (st_options s)
                               :: extra_index_urls (st_options s))
                  /\ sc = sa
                  /\ te = (if no_index (st_options s) then
                             [EvNotify ("Ignoring indexes: "
                                        +++ String.concat ","
                                              (index_url (st_options s)
                                               :: extra_index_urls (st_options s)))]
                           else [])).
    { destruct (no_index (st_options s)); injection Hi as <- <- <-; auto. }
    destruct Hte as (-> & -> & ->).
    split; [ rewrite Hl1, app_nil_r; reflexivity | ].
    split; [ rewrite Ggo; reflexivity | ].
    split; [ reflexivity | ].
    split; [ auto | ].
    split.
    { destruct (opt_list_truthy (install_options (st_options s))) eqn:Ha;
        [ | apply Gio; reflexivity ].
      rewrite Hoa, ?Ha, Hl1. simpl.
      destruct (use_user_site (st_options s)) eqn:Hu; simpl.
      - simpl in Hpass. rewrite Hpass. reflexivity.
      - rewrite app_nil_r, Fio.
        destruct (install_options (st_options s)) as [[| x l] | ];
          try discriminate Ha; reflexivity. }
    split; [ rewrite Gno; exact Fno | ].
    split; [ rewrite Gii, orb_false_r; exact Fii | ].
    split; [ rewrite Gbd; exact Fbd | ].
    split; [ rewrite Gsd; exact Fsd | ].
    rewrite app_nil_r. reflexivity.
Qed.

Lemma normalize_untouched o : preserves (untouched o) (normalize env).
Proof.
  apply normalize_preserves; unfold untouched; simpl; intros; assumption.
Qed.

Lemma untouched_refl o : untouched o o.
Proof. unfold untouched. repeat split; reflexivity. Qed.

(** X1: the option handling of lines 197-218, whether it completes or
    raises at line 205 or 212, changes the options object the caller passed
    in in at most six fields: [no_install], [ignore_installed], [build_dir],
    [src_dir], [install_options] and [target_dir].  The nineteen other
    fields that [run] reads are then as the caller gave them.  These lines
    hand the options object to no code outside [run]. *)
Theorem option_handling_leaves_other_options s :
  untouched (st_options s) (st_options (snd (fst (normalize env s)))).
Proof.
  apply (preserves_apply (untouched (st_options s))).
  - apply normalize_preserves; unfold untouched; simpl; intros; assumption.
  - apply untouched_refl.
Qed.

Lemma run_options_after_normalize args s plan s1 t1 :
  normalize env s = (Ok plan, s1, t1) ->
  st_options (snd (fst (run env self args s))) = st_options s1.
Proof.
  intros Hn. unfold run. rewrite (bind_ok_after _ _ _ _ _ _ Hn). simpl.
  apply (options_kept
           (bind (collect env args plan)
              (fun finder => conclude env self plan finder)) s1).
  intros I. apply preserves_bind; [ apply collect_preserves | intros f ].
  apply conclude_preserves.
Qed.


(** X3: [install_options.append] acts on the caller's list when the caller
    gave a non-empty one: after the first step the [install_options] of the
    options object is then the list that [install] will receive, additions
    included.  When the caller gave none (or an empty one), the options
    object keeps what it had and the additions go to a list of [run]'s
    own. *)
Theorem install_options_aliased args s plan s1 t1 :
  normalize env s = (Ok plan, s1, t1) ->
  install_options (st_options (snd (fst (run env self args s))))
  = (if opt_list_truthy (install_options (st_options s))
     then Some (plan_install_options plan)
     else install_options (st_options s)).
Proof.
  intros Hn. rewrite (run_options_after_normalize args s plan s1 t1 Hn).
  destruct (normalize_ok_inv s plan s1 t1 Hn)
    as (_ & _ & _ & _ & _ & Hio & _).
  exact Hio.
Qed.

Lemma run_new_requirement_set_ok args s a :
  In (EvNewRequirementSet a) (snd (run env self args s)) ->
  exists plan s1 t1,
    normalize env s = (Ok plan, s1, t1)
    /\ a = requirement_set_args (st_options s1).
Proof.
  intros Hin.
  pose proof (run_new_requirement_set env self args s a Hin) as Ha.
  pose proof (normalize_emits env s) as Hnorm.
  destruct (normalize env s) as [[[plan | e] s1] t1] eqn:Hn.
  - exists plan, s1, t1. auto.
  - unfold run in Hin. rewrite (bind_raise _ _ _ _ _ _ Hn) in Hin.
    simpl in Hin, Hnorm.
    apply (class_of_member is_normalize) in Hin; [ discriminate | exact Hnorm ].
Qed.

(** X4: the requirement set, when one is built, gets the caller's build and
    source directories made absolute, [ignore_installed] raised by a
    download or a target directory, and the caller's values for everything
    else. *)
Theorem requirement_set_arguments args s a :
  In (EvNewRequirementSet a) (snd (run env self args s)) ->
  rs_build_dir a = abspath env (st_world s) (build_dir (st_options s))
  /\ rs_src_dir a = abspath env (st_world s) (src_dir (st_options s))
  /\ rs_ignore_installed a
     = ignore_installed (st_options s) || truthy (download_dir (st_options s))
       || truthy (target_dir (st_options s))
  /\ rs_download_dir a = download_dir (st_options s)
  /\ rs_download_cache a = download_cache (st_options s)
  /\ rs_upgrade a = upgrade (st_options s)
  /\ rs_as_egg a = as_egg (st_options s)
  /\ rs_ignore_dependencies a = ignore_dependencies (st_options s)
  /\ rs_force_reinstall a = force_reinstall (st_options s)
  /\ rs_use_user_site a = use_user_site (st_options s).
Proof.
  intros Hin.
  destruct (run_new_requirement_set_ok args s a Hin)
    as (plan & s1 & t1 & Hn & ->).
  destruct (normalize_ok_inv s plan s1 t1 Hn)
    as (_ & _ & _ & _ & _ & _ & _ & Hii & Hbd & Hsd & _).
  pose proof (preserves_apply _ _ s (normalize_untouched (st_options s))
                (untouched_refl _)) as Hu.
  rewrite Hn in Hu. simpl in Hu. unfold untouched in Hu.
  destruct Hu as (Hdl & Huu & _ & _ & _ & _ & _ & _ & _ & Hdc & Hup & Heg
                  & Hid & Hfr & _).
  simpl. auto 12.
Qed.


Lemma post_checks_install_event plan finder s io go root :
  In (EvInstall io go root) (snd (post_checks env self plan finder s)) ->
  io = plan_install_options plan
  /\ go = plan_global_options plan
  /\ root = root_path (st_options s).
Proof.
  unfold post_checks. rewrite bind_trace, (acquire_trace env self). intros Hin.
  apply in_app_or in Hin as [Hin | Hin].
  { destruct (no_download (st_options s)); simpl in Hin;
      destruct Hin as [Hin | []]; discriminate Hin. }
  destruct (acquire env self finder s) as [[[[] | e] s4] t4] eqn:Ha;
    [ | destruct Hin ].
  pose proof (step_options _ _ _ _ _
                (fun I => acquire_preserves env self I finder) Ha) as Ho.
  unfold post_acquire in Hin.
  rewrite bind_trace, (run_mode_eq env self) in Hin.
  apply in_app_or in Hin as [Hin | Hin].
  - destruct (mode_by_priority self (st_options s4)); simpl in Hin.
    + destruct (bundle_mode_trace env self s4) as (r & Hr & Hn).
      rewrite Hr in Hin. destruct Hin as [Hin | Hin]; [ discriminate Hin | ].
      apply (class_of_member is_notify) in Hin; [ discriminate | exact Hn ].
    + apply (class_of_member is_notify) in Hin;
        [ discriminate | apply download_report_emits ].
    + destruct (install_mode_trace env plan s4) as (r & Hr & Hn).
      rewrite Hr in Hin. destruct Hin as [Hin | Hin].
      * injection Hin as <- <- <-. rewrite Ho. auto.
      * apply (class_of_member is_notify) in Hin; [ discriminate | exact Hn ].
  - destruct (run_selected env self plan _ s4) as [[[[] | e] s5] t5];
      [ | destruct Hin ].
    apply (class_of_member is_post_mode) in Hin;
      [ discriminate | apply post_mode_emits ].
Qed.

Lemma run_install_event args s io go root :
  In (EvInstall io go root) (snd (run env self args s)) ->
  exists plan s1 t1,
    normalize env s = (Ok plan, s1, t1)
    /\ io = plan_install_options plan
    /\ go = plan_global_options plan
    /\ root = root_path (st_options s1).
Proof.
  unfold run. intros Hin.
  pose proof (normalize_emits env s) as Hnorm.
  destruct (normalize env s) as [[[plan | e] s1] t1] eqn:Hn; simpl in Hnorm.
  2: { rewrite (bind_raise _ _ _ _ _ _ Hn) in Hin. simpl in Hin.
       apply (class_of_member is_normalize) in Hin; [ discriminate | exact Hnorm ]. }
  rewrite (bind_ok_after _ _ _ _ _ _ Hn) in Hin. simpl in Hin.
  apply in_app_or in Hin as [Hin | Hin].
  { apply (class_of_member is_normalize) in Hin; [ discriminate | exact Hnorm ]. }
  exists plan, s1, t1. split; [ reflexivity | ].
  rewrite bind_trace in Hin. apply in_app_or in Hin as [Hin | Hin].
  { apply (class_of_member is_collect) in Hin;
      [ discriminate | apply collect_emits ]. }
  destruct (collect env args plan s1) as [[[finder | e] s2] t2] eqn:Hc;
    [ | destruct Hin ].
  pose proof (step_options _ _ _ _ _
                (fun I => collect_preserves env I args plan) Hc) as Ho2.
  destruct (has_requirements env (st_world s2)) eqn:Hhas.
  - rewrite (conclude_nonempty env self plan finder s2 Hhas) in Hin.
    unfold finish in Hin. rewrite bind_trace in Hin.
    apply in_app_or in Hin as [Hin | Hin].
    { apply (class_of_member no_event) in Hin;
        [ discriminate | apply check_preconditions_emits ]. }
    destruct (check_preconditions env s2) as [[[[] | e] s3] t3] eqn:Hk;
      [ | destruct Hin ].
    pose proof (step_options _ _ _ _ _
                  (fun I => check_preconditions_preserves env I) Hk) as Ho3.
    apply post_checks_install_event in Hin as (-> & -> & ->).
    rewrite Ho3, Ho2. auto.
  - rewrite (conclude_empty env self plan finder s2 Hhas) in Hin.
    simpl in Hin. destruct Hin as [Hin | []]. discriminate Hin.
Qed.

(** X6: whenever [install] is called, it receives the caller's install
    options in their order, then [--user] if the user scheme was asked for,
    then [--home=] with the directory that [mkdtemp] returned if a target
    directory was given, and nothing else; the global options and the root
    path are the caller's. *)
Theorem install_receives args s io go root :
  In (EvInstall io go root) (snd (run env self args s)) ->
  go = or_empty (global_options (st_options s))
  /\ root = root_path (st_options s)
  /\ exists tail,
       io = or_empty (install_options (st_options s))
            ++ (if use_user_site (st_options s) then ["--user"] else [])
            ++ tail
       /\ (if truthy (target_dir (st_options s)) then
             exists tmp w1,
               mkdtemp env (st_world s) = (inr tmp, w1)
               /\ tail = ["--home=" +++ tmp]
           else tail = []).
Proof.
  intros Hin.
  destruct (run_install_event args s io go root Hin)
    as (plan & s1 & t1 & Hn & -> & -> & ->).
  destruct (normalize_ok_inv s plan s1 t1 Hn)
    as (_ & Hio & Hgo & _ & Htmp & _).
  pose proof (preserves_apply _ _ s (normalize_untouched (st_options s))
                (untouched_refl _)) as Hu.
  rewrite Hn in Hu. simpl in Hu. unfold untouched in Hu.
  split; [ exact Hgo | ]. split; [ apply Hu | ].
  eexists. split; [ exact Hio | ].
  destruct (truthy (target_dir (st_options s))).
  - destruct Htmp as (tmp & Hmk & ->). exists tmp, (st_world s1). auto.
  - destruct Htmp as (-> & _). reflexivity.
Qed.

(** X7: when the target path exists and is not a directory, [run] raises
    [CommandError].  By then [mkdtemp] has been called, and that is the only
    call made: no requirement is collected, and the temporary directory is
    not removed (the world is as [mkdtemp] left it). *)
Theorem target_not_a_directory args s c p tmp w1 :
  target_dir (st_options s) = Some (String c p) ->
  use_user_site (st_options s) && virtualenv_no_global env (st_world s) = false ->
  mkdtemp env (st_world s) = (inr tmp, w1) ->
  path_exists env w1 (abspath env w1 (String c p)) = true ->
  path_isdir env w1 (abspath env w1 (String c p)) = false ->
  fst (fst (run env self args s)) = Raise (CommandError target_msg)
  /\ snd (run env self args s) = [EvMkdtemp]
  /\ st_world (snd (fst (run env self args s))) = w1.
Proof.
  intros Htd Hpass Hmk Hex Hdir.
  assert (Hn : exists s1,
             normalize env s = (Raise (CommandError target_msg), s1, [EvMkdtemp])
             /\ st_world s1 = w1).
  { unfold normalize.
    rewrite (bind_ok_after _ _ _ _ _ _ (force_download_flags_eq _)), after_nil.
    rewrite (bind_ok_after _ _ _ _ _ _ (resolve_dirs_eq env _)), after_nil.
    match goal with
    | |- context [bind options _ ?S] => remember S as s0 eqn:Hs0
    end.
    assert (Hf : st_world s0 = st_world s
                 /\ use_user_site (st_options s0) = use_user_site (st_options s)
                 /\ target_dir (st_options s0) = target_dir (st_options s)).
    { subst s0. destruct (truthy (download_dir (st_options s))); auto. }
    destruct Hf as (Hw0 & Fu & Ftd). clear Hs0.
    rewrite bind_options.
    destruct (user_site_option env
                (opt_list_truthy (install_options (st_options s0)))
                (or_empty (install_options (st_options s0))) s0)
      as [[r sa] ta] eqn:Hu.
    destruct (user_site_option_any _ _ _ _ _ _ Hu) as (-> & Hwa & Hoa & Hr).
    destruct r as [l1 | e].
    2: { destruct Hr as (_ & H1 & H2). rewrite Fu in H1. rewrite Hw0 in H2.
         rewrite H1, H2 in Hpass. discriminate Hpass. }
    rewrite (bind_ok_after _ _ _ _ _ _ Hu), after_nil.
    assert (Hta : target_dir (st_options sa) = Some (String c p)).
    { rewrite Hoa.
      destruct (opt_list_truthy (install_options (st_options s0))
                && use_user_site (st_options s0)
                && negb (virtualenv_no_global env (st_world s0))); simpl;
        rewrite Ftd; exact Htd. }
    pose proof (stage_target_some env
                  (opt_list_truthy (install_options (st_options s0))) l1 sa c p
                  Hta) as Hs.
    rewrite Hwa, Hw0, Hmk in Hs. simpl in Hs. rewrite Hex, Hdir in Hs.
    simpl in Hs. eexists. split; [ apply bind_raise; exact Hs | reflexivity ]. }
  destruct Hn as (s1 & Hn & Hw).
  unfold run. rewrite (bind_raise _ _ _ _ _ _ Hn). simpl. auto.
Qed.

Lemma gather_no_acquire args s r s2 t :
  gather env args s = (r, s2, t) -> count is_acquire t = 0.
Proof.
  intros Hg. pose proof (gather_emits env args s) as Ht. rewrite Hg in Ht.
  apply count_none with (Q := is_gather); [ ev_cases | exact Ht ].
Qed.

(** X8: a user-scheme run with an editable requirement and a setuptools that
    is not distribute is refused: [run] raises [InstallationError] after the
    collection, and nothing is acquired. *)
Theorem user_editable_rejected args s plan finder s2 t w3 :
  gather env args s = (Ok (plan, finder), s2, t) ->
  has_requirements env (st_world s2) = true ->
  use_user_site (st_options s) = true ->
  version_lt (version_info env) 2 6 = false ->
  import_setuptools env (st_world s2) = (inr false, w3) ->
  has_editables env w3 = true ->
  run env self args s
  = (Raise (InstallationError user_editable_msg), mk_state (st_options s2) w3, t)
  /\ count is_acquire t = 0.
Proof.
  intros Hg Hhas Hu Hv Himp Hed.
  pose proof (gather_use_user_site env args s) as Hu2. rewrite Hg, Hu in Hu2.
  simpl in Hu2.
  split; [ | apply (gather_no_acquire args s _ _ _ Hg) ].
  rewrite run_gather, Hg, (conclude_nonempty env self plan finder s2 Hhas).
  assert (Hk : check_preconditions env s2
               = (Raise (InstallationError user_editable_msg),
                  mk_state (st_options s2) w3, [])).
  { unfold check_preconditions. rewrite bind_options, Hu2, Hv. simpl.
    rewrite bind_ret. unfold bind, call_silent. rewrite Himp. simpl.
    rewrite Hed. reflexivity. }
  unfold finish. rewrite (bind_raise _ _ _ _ _ _ Hk).
  unfold after. simpl. rewrite app_nil_r. reflexivity.
Qed.

(** X9: [import setuptools] is not guarded by any option: when it fails,
    a run with a non-empty requirement set raises that error before
    anything is acquired, whether or not the user scheme was asked for. *)
Theorem setuptools_import_failure args s plan finder s2 t e w3 :
  gather env args s = (Ok (plan, finder), s2, t) ->
  has_requirements env (st_world s2) = true ->
  use_user_site (st_options s) && version_lt (version_info env) 2 6 = false ->
  import_setuptools env (st_world s2) = (inl e, w3) ->
  run env self args s = (Raise e, mk_state (st_options s2) w3, t)
  /\ count is_acquire t = 0.
Proof.
  intros Hg Hhas Hu Himp.
  pose proof (gather_use_user_site env args s) as Hu2. rewrite Hg in Hu2.
  simpl in Hu2.
  split; [ | apply (gather_no_acquire args s _ _ _ Hg) ].
  rewrite run_gather, Hg, (conclude_nonempty env self plan finder s2 Hhas).
  assert (Hk : check_preconditions env s2
               = (Raise e, mk_state (st_options s2) w3, [])).
  { unfold check_preconditions. rewrite bind_options, Hu2, Hu. simpl.
    rewrite bind_ret. unfold bind, call_silent. rewrite Himp. reflexivity. }
  unfold finish. rewrite (bind_raise _ _ _ _ _ _ Hk).
  unfold after. simpl. rewrite app_nil_r. reflexivity.
Qed.

Lemma post_checks_phases plan finder s :
  exists ta tm tcl tr,
    snd (post_checks env self plan finder s) = ta ++ tm ++ tcl ++ tr
    /\ forallb is_acquire ta = true
    /\ forallb is_mode tm = true
    /\ forallb is_cleanup tcl = true
    /\ forallb is_relocate tr = true
    /\ length ta <= 1
    /\ length tcl <= 1.
Proof.
  unfold post_checks. rewrite bind_trace.
  exists (snd (acquire env self finder s)).
  pose proof (acquire_emits env self finder s) as Ha.
  assert (Hla : length (snd (acquire env self finder s)) <= 1)
    by (rewrite (acquire_trace env self); simpl; lia).
  destruct (acquire env self finder s) as [[[[] | e] s4] t4]; simpl in *.
  2: { exists [], [], []. simpl. auto 10. }
  unfold post_acquire. rewrite bind_trace.
  exists (snd (run_mode env self plan s4)).
  pose proof (run_mode_emits env self plan s4) as Hm.
  destruct (run_mode env self plan s4) as [[[[] | e] s5] t5]; simpl in *.
  2: { exists [], []. simpl. auto 10. }
  unfold post_mode. rewrite bind_trace.
  exists (snd (cleanup env self s5)).
  pose proof (cleanup_emits env self s5) as Hc.
  assert (Hlc : length (snd (cleanup env self s5)) <= 1).
  { rewrite (cleanup_trace env self).
    destruct (negb (no_install (st_options s5))
              || truthy (download_dir (st_options s5))); simpl; lia. }
  destruct (cleanup env self s5) as [[[[] | e] s6] t6]; simpl in *.
  2: { exists []. simpl. auto 10. }
  unfold post_cleanup. rewrite bind_trace.
  pose proof (relocate_emits env plan s6) as Hr.
  destruct (relocate env plan s6) as [[[[] | e] s7] t7]; simpl in *;
    exists t7; rewrite ?app_nil_r; auto 10.
Qed.

(** X10: the calls of any run come in the order of the steps: first those of
    the option handling ([notify], [mkdtemp]), then those of the requirement
    collector, then either the one warning of the early return or, in this
    order, at most one acquisition call, the calls of the outcome mode, at
    most one [cleanup_files] and the calls of the relocation.  In
    particular nothing is acquired before the collection is over, and
    nothing is relocated before the clean-up. *)
Theorem calls_in_step_order args s :
  exists tn tc tw ta tm tcl tr,
    snd (run env self args s) = tn ++ tc ++ tw ++ ta ++ tm ++ tcl ++ tr
    /\ forallb is_normalize tn = true
    /\ forallb is_collect tc = true
    /\ forallb is_warn tw = true
    /\ forallb is_acquire ta = true
    /\ forallb is_mode tm = true
    /\ forallb is_cleanup tcl = true
    /\ forallb is_relocate tr = true
    /\ (tw = [] \/ ta ++ tm ++ tcl ++ tr = [])
    /\ length tw <= 1
    /\ length ta <= 1
    /\ length tcl <= 1.
Proof.
  unfold run. rewrite bind_trace.
  exists (snd (normalize env s)).
  pose proof (normalize_emits env s) as Hn.
  destruct (normalize env s) as [[[plan | e] s1] t1]; simpl in *.
  2: { exists [], [], [], [], [], []. simpl. auto 15. }
  rewrite bind_trace.
  exists (snd (collect env args plan s1)).
  pose proof (collect_emits env args plan s1) as Hc.
  destruct (collect env args plan s1) as [[[finder | e] s2] t2]; simpl in *.
  2: { exists [], [], [], [], []. simpl. auto 15. }
  destruct (has_requirements env (st_world s2)) eqn:Hhas.
  - rewrite (conclude_nonempty env self plan finder s2 Hhas).
    unfold finish. rewrite bind_trace.
    pose proof (check_preconditions_emits env s2) as Hk.
    destruct (check_preconditions env s2) as [[[[] | e] s3] t3]; simpl in *.
    + assert (t3 = []) as -> by (destruct t3; [ reflexivity | discriminate Hk ]).
      destruct (post_checks_phases plan finder s3)
        as (ta & tm & tcl & tr & -> & Ha & Hm & Hcl & Hr & Hla & Hlc).
      exists [], ta, tm, tcl, tr. simpl. auto 15.
    + assert (t3 = []) as -> by (destruct t3; [ reflexivity | discriminate Hk ]).
      exists [], [], [], [], []. simpl. auto 15.
  - rewrite (conclude_empty env self plan finder s2 Hhas). simpl.
    exists [EvWarn (no_requirement_msg self (st_options s2))], [], [], [], [].
    simpl. auto 15.
Qed.

Lemma filter_none (P Q : event -> bool) (t : list event) :
  (forall e, Q e = true -> P e = false) ->
  forallb Q t = true -> filter P t = [].
Proof.
  intros HQ. induction t as [| e t IH]; simpl; [ reflexivity | ].
  intros H. apply andb_true_iff in H as [He Ht].
  rewrite (HQ e He). auto.
Qed.

Lemma for_each_filter {A : Type} (P : event -> bool) (f : A -> event)
    (body : A -> M W unit) (l : list A) :
  (forall x s s' t, body x s = (Ok tt, s', t) -> filter P t = [f x]) ->
  forall s s' t, for_each l body s = (Ok tt, s', t) -> filter P t = map f l.
Proof.
  intros Hbody. induction l as [| x l IH]; simpl; intros s s' t H.
  - unfold ret in H. injection H as _ <-. reflexivity.
  - apply bind_inv in H as [([] & sa & ta & tb & Hx & H & ->) | (e & _ & He)];
      [ | discriminate He ].
    rewrite filter_app, (Hbody _ _ _ _ Hx), (IH _ _ _ H). reflexivity.
Qed.

Lemma add_inv r s s' t :
  add env r s = (Ok tt, s', t) -> t = [EvAddRequirement r].
Proof. unfold add. intros H. apply call_inv in H as (-> & _). reflexivity. Qed.

Lemma line_body_filter line x x' t :
  bind (call (EvFromLine line) (from_line env line)) (fun r => add env r) x
  = (Ok tt, x', t) ->
  filter is_constructor t = [EvFromLine line].
Proof.
  intros Hb.
  apply bind_inv in Hb as [(r & xa & t1 & t2 & Hc & Hb & ->) | (e & _ & He)];
    [ | discriminate He ].
  apply call_inv in Hc as (-> & _). apply add_inv in Hb as ->. reflexivity.
Qed.

Lemma editable_body_filter vcs url x x' t :
  bind (call (EvFromEditable url vcs) (from_editable env url vcs))
    (fun r => add env r) x
  = (Ok tt, x', t) ->
  filter is_constructor t = [EvFromEditable url vcs].
Proof.
  intros Hb.
  apply bind_inv in Hb as [(r & xa & t1 & t2 & Hc & Hb & ->) | (e & _ & He)];
    [ | discriminate He ].
  apply call_inv in Hc as (-> & _). apply add_inv in Hb as ->. reflexivity.
Qed.

Lemma file_body_filter finder o filename x x' t :
  bind (call (EvParseRequirements filename)
          (fun w => match parse_requirements env filename finder o w with
                    | (g, w') => (inr g, w')
                    end))
    (fun g => bind (for_each (fst g) (add env))
                (fun _ => match snd g with
                          | Some e => raise e
                          | None => ret tt
                          end)) x
  = (Ok tt, x', t) ->
  filter is_constructor t = [EvParseRequirements filename].
Proof.
  intros Hb.
  apply bind_inv in Hb as [(g & xa & t1 & t2 & Hp & Hb & ->) | (e & _ & He)];
    [ | discriminate He ].
  apply call_inv in Hp as (-> & _).
  apply bind_inv in Hb as [([] & xb & t3 & t4 & Ha & Hb & ->) | (e & _ & He)];
    [ | discriminate He ].
  assert (Hadd : forallb is_add_requirement t3 = true).
  { pose proof (emits_apply is_add_requirement
                  (for_each (fst g) (add env)) xa) as Hadd.
    rewrite Ha in Hadd. apply Hadd. unfold add. repeat emits_step. }
  assert (Ht4 : t4 = []).
  { destruct (snd g); [ discriminate Hb | ].
    unfold ret in Hb. injection Hb as _ <-. reflexivity. }
  subst t4. simpl. rewrite app_nil_r.
  rewrite (filter_none is_constructor is_add_requirement t3);
    [ reflexivity | ev_cases | exact Hadd ].
Qed.

Lemma collect_sources args plan s finder s2 t :
  collect env args plan s = (Ok finder, s2, t) ->
  filter is_constructor t
  = map EvFromLine args
    ++ map (fun url => EvFromEditable url (default_vcs (st_options s)))
         (editables (st_options s))
    ++ map EvParseRequirements (requirements (st_options s)).
Proof.
  unfold collect. rewrite bind_options. intros H.
  apply bind_inv in H as [([] & sa & ta & tb & Hnew & H & ->) | (e & _ & He)];
    [ | discriminate He ].
  apply call_inv in Hnew as (-> & _).
  apply bind_inv in H as [([] & sb & tc & td & Hl & H & ->) | (e & _ & He)];
    [ | discriminate He ].
  apply bind_inv in H as [([] & sc & te & tf & He' & H & ->) | (e & _ & He)];
    [ | discriminate He ].
  apply bind_inv in H as [([] & sd & tg & th & Hf & H & ->) | (e & _ & He)];
    [ | discriminate He ].
  unfold ret in H. injection H as _ _ <-.
  apply (for_each_filter is_constructor EvFromLine) in Hl;
    [ | intros; eapply line_body_filter; eassumption ].
  apply (for_each_filter is_constructor
           (fun url => EvFromEditable url (default_vcs (st_options s)))) in He';
    [ | intros; eapply editable_body_filter; eassumption ].
  apply (for_each_filter is_constructor EvParseRequirements) in Hf;
    [ | intros; eapply file_body_filter; eassumption ].
  simpl. rewrite !filter_app, Hl, He', Hf. simpl. rewrite app_nil_r.
  reflexivity.
Qed.

(** X11: in a collection that completes, the requirement set is built
    first, and the requirement sources are then read in this order: every
    positional argument in the order given, every editable in the order
    given (with the default version control system of the options), every
    requirements file in the order given. *)
Theorem sources_read_in_order args s plan finder s2 t :
  gather env args s = (Ok (plan, finder), s2, t) ->
  filter is_constructor t
  = map EvFromLine args
    ++ map (fun url => EvFromEditable url (default_vcs (st_options s)))
         (editables (st_options s))
    ++ map EvParseRequirements (requirements (st_options s))
  /\ exists tn tc,
       t = tn ++ EvNewRequirementSet
                   (requirement_set_args
                      (st_options (snd (fst (normalize env s))))) :: tc
       /\ forallb is_normalize tn = true
       /\ forallb is_source tc = true.
Proof.
  intros Hg.
  destruct (gather_inv env args s plan finder s2 t Hg)
    as (s1 & t1 & t2 & Hn & Hc & ->).
  pose proof (normalize_emits env s) as Hnorm. rewrite Hn in Hnorm.
  simpl in Hnorm.
  pose proof (preserves_apply _ _ s (normalize_untouched (st_options s))
                (untouched_refl _)) as Hu.
  rewrite Hn in Hu. simpl in Hu. unfold untouched in Hu.
  destruct Hu as (_ & _ & _ & _ & _ & _ & _ & _ & _ & _ & _ & _ & _ & _
                  & Hed & Hvcs & Hreq & _).
  split.
  - rewrite filter_app, (collect_sources args plan s1 finder s2 t2 Hc).
    rewrite (filter_none is_constructor is_normalize t1);
      [ | ev_cases | exact Hnorm ].
    rewrite Hed, Hvcs, Hreq. reflexivity.
  - destruct (collect_trace env args plan s1) as (tc & Htc & Hsrc).
    rewrite Hc in Htc. simpl in Htc. subst t2.
    exists t1, tc. rewrite Hn. simpl. auto.
Qed.

Lemma count_zero (p : event -> bool) (t : list event) :
  (forall e, In e t -> p e = false) -> count p t = 0.
Proof.
  unfold count. induction t as [| e t IH]; simpl; intros H; [ reflexivity | ].
  rewrite (H e (or_introl eq_refl)). apply IH. intros x Hx. apply H. right.
  exact Hx.
Qed.

(** Where in a run a call can occur: a call after the checks of lines
    254-263 occurs in [post_checks], started from the options as
    [normalize] left them. *)
Lemma run_late_event args s e :
  In e (snd (run env self args s)) ->
  is_early e = false ->
  exists plan s1 t1 finder s3,
    normalize env s = (Ok plan, s1, t1)
    /\ st_options s3 = st_options s1
    /\ In e (snd (post_checks env self plan finder s3)).
Proof.
  unfold run. intros Hin He.
  pose proof (normalize_emits env s) as Hnorm.
  assert (Hne : forall t, forallb is_normalize t = true -> ~ In e t).
  { intros t Ht Hx. apply (class_of_member is_normalize) in Hx; [ | exact Ht ].
    destruct e; discriminate. }
  assert (Hce : forall t, forallb is_collect t = true -> ~ In e t).
  { intros t Ht Hx. apply (class_of_member is_collect) in Hx; [ | exact Ht ].
    destruct e; discriminate. }
  destruct (normalize env s) as [[[plan | x] s1] t1] eqn:Hn; simpl in Hnorm.
  2: { rewrite (bind_raise _ _ _ _ _ _ Hn) in Hin. simpl in Hin.
       destruct (Hne _ Hnorm Hin). }
  rewrite (bind_ok_after _ _ _ _ _ _ Hn) in Hin. simpl in Hin.
  apply in_app_or in Hin as [Hin | Hin]; [ destruct (Hne _ Hnorm Hin) | ].
  rewrite bind_trace in Hin. apply in_app_or in Hin as [Hin | Hin].
  { destruct (Hce _ (collect_emits env args plan s1) Hin). }
  destruct (collect env args plan s1) as [[[finder | x] s2] t2] eqn:Hc;
    [ | destruct Hin ].
  pose proof (step_options _ _ _ _ _
                (fun I => collect_preserves env I args plan) Hc) as Ho2.
  destruct (has_requirements env (st_world s2)) eqn:Hhas.
  - rewrite (conclude_nonempty env self plan finder s2 Hhas) in Hin.
    unfold finish in Hin. rewrite bind_trace in Hin.
    apply in_app_or in Hin as [Hin | Hin].
    { apply (class_of_member no_event) in Hin;
        [ discriminate | apply check_preconditions_emits ]. }
    destruct (check_preconditions env s2) as [[[[] | x] s3] t3] eqn:Hk;
      [ | destruct Hin ].
    pose proof (step_options _ _ _ _ _
                  (fun I => check_preconditions_preserves env I) Hk) as Ho3.
    exists plan, s1, t1, finder, s3.
    split; [ reflexivity | ]. split; [ congruence | exact Hin ].
  - rewrite (conclude_empty env self plan finder s2 Hhas) in Hin.
    simpl in Hin. destruct Hin as [<- | []]. discriminate He.
Qed.



(** X13: the early return on an empty requirement set comes after the
    temporary directory of a target install has been made and before the
    relocation that would delete it: such a run returns [None] having
    called [mkdtemp] once and none of [makedirs], [listdir], [move] and
    [rmtree], so the temporary directory is left behind. *)
Theorem soft_exit_leaves_temp_dir args s plan finder s2 t :
  truthy (target_dir (st_options s)) = true ->
  gather env args s = (Ok (plan, finder), s2, t) ->
  has_requirements env (st_world s2) = false ->
  fst (fst (run env self args s)) = Ok RetNone
  /\ count is_mkdtemp (snd (run env self args s)) = 1
  /\ count is_relocate (snd (run env self args s)) = 0
  /\ exists tmp w1,
       mkdtemp env (st_world s) = (inr tmp, w1)
       /\ plan_temp_target_dir plan = Some tmp.
Proof.
  intros Ht Hg Hhas.
  destruct (gather_inv env args s plan finder s2 t Hg)
    as (s1 & t1 & t2 & Hn & Hc & ->).
  destruct (truthy_some _ Ht) as (c & p & Htd).
  destruct (normalize_target env s plan s1 t1 c p Hn Htd)
    as (tmp & t' & Hmk & Htmp & _ & _ & _ & -> & Hnot).
  pose proof (collect_emits env args plan s1) as Ht2. rewrite Hc in Ht2.
  simpl in Ht2.
  rewrite run_gather, Hg, (conclude_empty env self plan finder s2 Hhas).
  unfold after. simpl.
  split; [ reflexivity | ].
  change (EvMkdtemp :: (t' ++ t2) ++ ?w) with ([EvMkdtemp] ++ (t' ++ t2) ++ w).
  rewrite !count_app.
  rewrite (count_none is_mkdtemp is_notify t'),
    (count_none is_mkdtemp is_collect t2),
    (count_none is_relocate is_notify t'),
    (count_none is_relocate is_collect t2);
    try assumption; try ev_cases.
  split; [ reflexivity | ]. split; [ reflexivity | ].
  exists tmp, (st_world s1). auto.
Qed.

Lemma relocate_skipped plan s :
  truthy (target_dir (st_options s)) = false ->
  relocate env plan s = (Ok tt, s, []).
Proof.
  intros H. unfold relocate. rewrite bind_options.
  destruct (target_dir (st_options s)) as [[| c p] | ]; simpl in H;
    try discriminate H; reflexivity.
Qed.

Lemma post_checks_relocation_event plan finder s e :
  In e (snd (post_checks env self plan finder s)) ->
  is_relocate e = true ->
  truthy (target_dir (st_options s)) = true.
Proof.
  intros Hin He.
  destruct (truthy (target_dir (st_options s))) eqn:Ht; [ reflexivity | ].
  exfalso. unfold post_checks in Hin. rewrite bind_trace in Hin.
  apply in_app_or in Hin as [Hin | Hin].
  { apply (class_of_member is_acquire) in Hin; [ | apply acquire_emits ].
    destruct e; discriminate. }
  destruct (acquire env self finder s) as [[[[] | x] s4] t4] eqn:Ha;
    [ | destruct Hin ].
  pose proof (step_options _ _ _ _ _
                (fun I => acquire_preserves env self I finder) Ha) as Ho4.
  unfold post_acquire in Hin. rewrite bind_trace in Hin.
  apply in_app_or in Hin as [Hin | Hin].
  { apply (class_of_member is_mode) in Hin; [ | apply run_mode_emits ].
    destruct e; discriminate. }
  destruct (run_mode env self plan s4) as [[[[] | x] s5] t5] eqn:Hm;
    [ | destruct Hin ].
  pose proof (step_options _ _ _ _ _
                (fun I => run_mode_preserves env self I plan) Hm) as Ho5.
  unfold post_mode in Hin. rewrite bind_trace in Hin.
  apply in_app_or in Hin as [Hin | Hin].
  { apply (class_of_member is_cleanup) in Hin; [ | apply cleanup_emits ].
    destruct e; discriminate. }
  destruct (cleanup env self s5) as [[[[] | x] s6] t6] eqn:Hc;
    [ | destruct Hin ].
  pose proof (step_options _ _ _ _ _
                (fun I => cleanup_preserves env self I) Hc) as Ho6.
  unfold post_cleanup in Hin.
  assert (Ht6 : truthy (target_dir (st_options s6)) = false)
    by (rewrite Ho6, Ho5, Ho4; exact Ht).
  rewrite (bind_ok_after _ _ _ _ _ _ (relocate_skipped plan s6 Ht6)) in Hin.
  simpl in Hin. exact Hin.
Qed.

(** X14: without a target directory, no run calls [mkdtemp], [makedirs],
    [listdir], [move] or [rmtree]: the file system is touched by [run]
    itself only for a target install. *)
Theorem no_target_no_filesystem_call args s :
  truthy (target_dir (st_options s)) = false ->
  count is_filesystem (snd (run env self args s)) = 0.
Proof.
  intros Ht. apply count_zero. intros e Hin.
  destruct (is_filesystem e) eqn:He; [ exfalso | reflexivity ].
  destruct (is_early e) eqn:Hearly.
  - (* among the early calls only mkdtemp is a file system call *)
    assert (e = EvMkdtemp) by (destruct e; try discriminate; reflexivity).
    subst e. clear He Hearly.
    unfold run in Hin.
    destruct (normalize env s) as [[[plan | x] s1] t1] eqn:Hn.
    + destruct (normalize_ok_inv s plan s1 t1 Hn)
        as (_ & _ & _ & _ & _ & _ & _ & _ & _ & _ & Ht1).
      rewrite Ht in Ht1. simpl in Ht1.
      rewrite (bind_ok_after _ _ _ _ _ _ Hn) in Hin. simpl in Hin.
      apply in_app_or in Hin as [Hin | Hin].
      * subst t1. destruct (no_index (st_options s)); simpl in Hin;
          [ destruct Hin as [Hin | []]; discriminate Hin | destruct Hin ].
      * rewrite bind_trace in Hin. apply in_app_or in Hin as [Hin | Hin].
        { apply (class_of_member is_collect) in Hin;
            [ discriminate | apply collect_emits ]. }
        destruct (collect env args plan s1) as [[[finder | x] s2] t2];
          [ | destruct Hin ].
        apply (class_of_member (fun e => is_warn e || is_late e)) in Hin;
          [ discriminate | apply conclude_emits ].
    + rewrite (bind_raise _ _ _ _ _ _ Hn) in Hin. simpl in Hin.
      (* a raising normalize without target: the user-site rejection *)
      unfold normalize in Hn.
      rewrite (bind_ok_after _ _ _ _ _ _ (force_download_flags_eq _)),
        after_nil in Hn.
      rewrite (bind_ok_after _ _ _ _ _ _ (resolve_dirs_eq env _)),
        after_nil in Hn.
      match type of Hn with
      | bind options _ ?S = _ => remember S as s0 eqn:Hs0
      end.
      assert (Ftd : target_dir (st_options s0) = target_dir (st_options s))
        by (subst s0; destruct (truthy (download_dir (st_options s)));
            reflexivity).
      clear Hs0. rewrite bind_options in Hn.
      apply bind_inv in Hn
        as [(l1 & sa & ta & tb & Hu & Hn & ->) | (x' & Hu & _)].
      * destruct (user_site_option_any _ _ _ _ _ _ Hu) as (-> & _ & Hoa & _).
        assert (Hta : truthy (target_dir (st_options sa)) = false).
        { rewrite Hoa.
          destruct (opt_list_truthy (install_options (st_options s0))
                    && use_user_site (st_options s0)
                    && negb (virtualenv_no_global env (st_world s0))); simpl;
            rewrite Ftd; exact Ht. }
        rewrite (bind_ok_after _ _ _ _ _ _ (stage_target_none env _ _ _ Hta))
          in Hn.
        rewrite after_nil, bind_options in Hn.
        apply bind_inv in Hn
          as [(urls & sc & te & tf & Hi & Hn & ->) | (x' & Hi & _)].
        -- discriminate Hn.
        -- rewrite effective_index_urls_eq in Hi.
           destruct (no_index (st_options sa)); discriminate Hi.
      * destruct (user_site_option_any _ _ _ _ _ _ Hu) as (-> & _).
        destruct Hin.
  - destruct (run_late_event args s e Hin Hearly)
      as (plan & s1 & t1 & finder & s3 & Hn & Ho & Hpc).
    assert (Hrel : is_relocate e = true).
    { destruct e; try discriminate He; try discriminate Hearly; reflexivity. }
    apply (post_checks_relocation_event plan finder s3 e Hpc) in Hrel.
    destruct (normalize_ok_inv s plan s1 t1 Hn)
      as (_ & _ & _ & _ & Htmp & _).
    rewrite Ht in Htmp. destruct Htmp as (_ & _ & Htd).
    rewrite Ho, Htd, Ht in Hrel. discriminate Hrel.
Qed.


End More.

(** * Concrete runs *)

(** [evaluated H t] names [H] the equation of [t] with its value. *)
Ltac evaluated H t :=
  let v := eval vm_compute in t in
  assert (H : t = v) by (vm_compute; reflexivity).

Module Runs.

Import Toy.


(** [pip install -d /tmp/out pkg-b] *)
Lemma download_dir_forces_flags_witness :
  truthy (download_dir (with_download "/tmp/out" defaults)) = true
  /\ no_install
       (st_options
          (snd (fst (run (env plain) install_cmd ["pkg-b"]
                       (start (with_download "/tmp/out" defaults)))))) = true
  /\ ignore_installed
       (st_options
          (snd (fst (run (env plain) install_cmd ["pkg-b"]
                       (start (with_download "/tmp/out" defaults)))))) = true.
Proof.
  split; [ reflexivity | ].
  destruct (download_dir_forces_flags (env plain) install_cmd ["pkg-b"]
              (start (with_download "/tmp/out" defaults)) eq_refl)
    as (_ & H1 & H2 & _).
  split; [ exact H1 | exact H2 ].
Defined.

(** [pip install], with nothing to install. *)
Lemma empty_collection_soft_exit_witness :
  has_requirements (env plain)
    (st_world (snd (fst (gather (env plain) [] (start defaults))))) = false
  /\ fst (fst (run (env plain) install_cmd [] (start defaults))) = Ok RetNone
  /\ count is_warn (snd (run (env plain) install_cmd [] (start defaults))) = 1
  /\ count is_cleanup (snd (run (env plain) install_cmd [] (start defaults))) = 0.
Proof.
  split; [ reflexivity | ].
  destruct (empty_collection_soft_exit (env plain) install_cmd [] (start defaults)
              _ _ _ _ eq_refl eq_refl)
    as (H1 & H2 & _ & _ & _ & H3).
  split; [ rewrite H1; reflexivity | ].
  split; [ exact H2 | exact H3 ].
Defined.



Lemma cleanup_iff_mode_when_completed_witness :
  fst (fst (run (env plain) install_cmd ["pkg-a"] (start defaults)))
  = Ok RetRequirementSet
  /\ count is_cleanup
       (snd (run (env plain) install_cmd ["pkg-a"] (start defaults))) = 1.
Proof.
  split; [ reflexivity | ].
  destruct (cleanup_iff_mode_when_completed (env plain) install_cmd ["pkg-a"]
              (start defaults) _ _ eq_refl)
    as (H & _).
  exact H.
Defined.

(** [pip install -t /opt/mylib pkg-c] *)
Lemma target_dir_stages_redirect_witness :
  truthy (target_dir (with_target "/opt/mylib" defaults)) = true
  /\ ignore_installed
       (st_options
          (snd (fst (normalize (env plain)
                       (start (with_target "/opt/mylib" defaults)))))) = true
  /\ count is_mkdtemp
       (snd (normalize (env plain) (start (with_target "/opt/mylib" defaults)))) = 1.
Proof.
  split; [ reflexivity | ].
  evaluated Hn (normalize (env plain) (start (with_target "/opt/mylib" defaults))).
  destruct (target_dir_stages_redirect (env plain) install_cmd ["pkg-c"]
              (start (with_target "/opt/mylib" defaults)) _ _ _ Hn eq_refl)
    as (H1 & _ & H2 & _).
  rewrite Hn. split; [ exact H1 | exact H2 ].
Defined.


(** [pip install -t /opt/mylib pkg-c], with nothing to be found for pkg-c. *)
Lemma failure_skips_cleanup_witness :
  fst (fst (run (env failing) install_cmd ["pkg-c"]
              (start (with_target "/opt/mylib" defaults))))
  = Raise (InstallationError "no distribution found")
  /\ count is_cleanup
       (snd (run (env failing) install_cmd ["pkg-c"]
               (start (with_target "/opt/mylib" defaults)))) = 0
  /\ count is_rmtree
       (snd (run (env failing) install_cmd ["pkg-c"]
               (start (with_target "/opt/mylib" defaults)))) = 0.
Proof.
  evaluated Hp (prologue (env failing) install_cmd ["pkg-c"]
                  (start (with_target "/opt/mylib" defaults))).
  destruct (failure_skips_cleanup (env failing) install_cmd ["pkg-c"]
              (start (with_target "/opt/mylib" defaults)) _ _ _ _ Hp)
    as (H & _).
  match type of H with
  | forall e s5 t, ?m = _ -> _ => evaluated Hf m
  end.
  destruct (H _ _ _ Hf) as (H1 & H2 & H3).
  rewrite H1. split; [ reflexivity | ]. split; [ exact H2 | exact H3 ].
Defined.


(** [pip install --user pkg-a] on Python 2.5. *)
Lemma old_python_rejected_after_collection_witness :
  use_user_site (with_user defaults) = true
  /\ version_lt (version_info (env old_python)) 2 6 = true
  /\ fst (fst (run (env old_python) install_cmd ["pkg-a"]
                 (start (with_user defaults))))
     = Raise (InstallationError old_python_msg).
Proof.
  split; [ reflexivity | ]. split; [ reflexivity | ].
  destruct (old_python_rejected_after_collection (env old_python) install_cmd
              ["pkg-a"] (start (with_user defaults)) _ _ _ _
              eq_refl eq_refl eq_refl)
    as (H & _).
  rewrite H. reflexivity.
Defined.

(** ** The statements that fail *)

(** [pip install -t /opt/mylib pkg-c] with nothing to be found for pkg-c:
    [prepare_files] raises, and neither [cleanup_files] nor [rmtree] is
    called, although the temporary home has been made. *)
Lemma no_cleanup_after_failed_acquisition : ~ cleanup_attempted_on_failure.
Proof.
  intros H.
  evaluated Hp (prologue (env failing) install_cmd ["pkg-c"]
                  (start (with_target "/opt/mylib" defaults))).
  pose proof (fun e s4 t4 =>
                H world (env failing) install_cmd ["pkg-c"]
                  (start (with_target "/opt/mylib" defaults))
                  _ _ _ _ e s4 t4 "/tmp/tmpdir" Hp) as Hx.
  match type of Hx with
  | forall e s4 t4, ?m = _ -> _ => evaluated Hf m
  end.
  destruct (Hx _ _ _ Hf eq_refl) as (Hc & _).
  vm_compute in Hc. inversion Hc.
Qed.

(** [pip install] with nothing to install returns without error; [no_install]
    is false and [cleanup_files] is not called. *)
Lemma no_cleanup_on_soft_exit : ~ cleanup_iff_mode.
Proof.
  intros H.
  destruct (H world (env plain) install_cmd [] (start defaults) _ _ _ eq_refl)
    as (_ & Hc).
  specialize (Hc (or_introl eq_refl)).
  vm_compute in Hc. inversion Hc.
Qed.



(** [pip install --user pkg-a] on Python 2.5 where the global site-packages
    are hidden: the error of line 205 is raised, before the collection, and
    not the one about Python 2.6. *)
Lemma old_python_error_preempted : ~ old_python_always_rejected.
Proof.
  intros H.
  destruct (H world (env isolated) install_cmd ["pkg-a"]
              (start (with_user defaults)) eq_refl eq_refl)
    as [(He & _) | He]; vm_compute in He; discriminate He.
Qed.

End Runs.

(** * Concrete runs for the further properties *)

Module Examples.

Import Toy.


Lemma install_options_aliased_witness :
  install_options
    (st_options
       (snd (fst (run (env plain) install_cmd ["pkg-a"] (start Cases.user_prefix)))))
  = Some ["--prefix=/x"; "--user"].
Proof.
  evaluated Hn (normalize (env plain) (start Cases.user_prefix)).
  rewrite (install_options_aliased (env plain) install_cmd ["pkg-a"]
             (start Cases.user_prefix) _ _ _ Hn).
  reflexivity.
Defined.

Lemma requirement_set_arguments_witness :
  In (EvNewRequirementSet
        (mk_rsargs "/tmp/pip-build" "/cwd/src" None None false false true false
           false true))
    (snd (run (env plain) install_cmd ["pkg-a"] (start Cases.user_target)))
  /\ rs_ignore_installed
       (mk_rsargs "/tmp/pip-build" "/cwd/src" None None false false true false
          false true)
     = ignore_installed Cases.user_target
       || truthy (download_dir Cases.user_target)
       || truthy (target_dir Cases.user_target).
Proof.
  assert (Hin : In (EvNewRequirementSet
                      (mk_rsargs "/tmp/pip-build" "/cwd/src" None None false
                         false true false false true))
                  (snd (run (env plain) install_cmd ["pkg-a"]
                          (start Cases.user_target)))).
  { evaluated Hr (run (env plain) install_cmd ["pkg-a"] (start Cases.user_target)).
    rewrite Hr. simpl. right. left. reflexivity. }
  split; [ exact Hin | ].
  destruct (requirement_set_arguments (env plain) install_cmd ["pkg-a"]
              (start Cases.user_target) _ Hin)
    as (_ & _ & H & _).
  exact H.
Defined.


Lemma install_receives_witness :
  In (EvInstall ["--prefix=/x"; "--user"; "--home=/tmp/tmpdir"] ["-q"] (Some "/r"))
    (snd (run (env plain) install_cmd ["pkg-a"] (start Cases.user_target)))
  /\ ["-q"] = or_empty (global_options Cases.user_target)
  /\ Some "/r" = root_path Cases.user_target.
Proof.
  assert (Hin : In (EvInstall ["--prefix=/x"; "--user"; "--home=/tmp/tmpdir"]
                      ["-q"] (Some "/r"))
                  (snd (run (env plain) install_cmd ["pkg-a"]
                          (start Cases.user_target)))).
  { evaluated Hr (run (env plain) install_cmd ["pkg-a"] (start Cases.user_target)).
    rewrite Hr. simpl. do 5 right. left. reflexivity. }
  split; [ exact Hin | ].
  destruct (install_receives (env plain) install_cmd ["pkg-a"]
              (start Cases.user_target) _ _ _ Hin)
    as (H1 & H2 & _).
  split; [ exact H1 | exact H2 ].
Defined.

Lemma target_not_a_directory_witness :
  path_exists (env plain)
    (mk_world [] ["/tmp/tmpdir"] ["/opt/mylib"]) "/opt/mylib" = true
  /\ path_isdir (env plain)
       (mk_world [] ["/tmp/tmpdir"] ["/opt/mylib"]) "/opt/mylib" = false
  /\ fst (fst (run (env plain) install_cmd ["pkg-c"]
                 (mk_state (with_target "/opt/mylib" defaults)
                    Cases.file_in_the_way)))
     = Raise (CommandError target_msg)
  /\ snd (run (env plain) install_cmd ["pkg-c"]
            (mk_state (with_target "/opt/mylib" defaults) Cases.file_in_the_way))
     = [EvMkdtemp].
Proof.
  split; [ reflexivity | ]. split; [ reflexivity | ].
  destruct (target_not_a_directory (env plain) install_cmd ["pkg-c"]
              (mk_state (with_target "/opt/mylib" defaults) Cases.file_in_the_way)
              "/" "opt/mylib" "/tmp/tmpdir"
              (mk_world [] ["/tmp/tmpdir"] ["/opt/mylib"])
              eq_refl eq_refl eq_refl eq_refl eq_refl)
    as (H1 & H2 & _).
  split; [ exact H1 | exact H2 ].
Defined.

Lemma user_editable_rejected_witness :
  use_user_site Cases.user_editable = true
  /\ version_lt (version_info (env plain)) 2 6 = false
  /\ fst (fst (run (env plain) install_cmd ["pkg-a"] (start Cases.user_editable)))
     = Raise (InstallationError user_editable_msg).
Proof.
  split; [ reflexivity | ]. split; [ reflexivity | ].
  evaluated Hg (gather (env plain) ["pkg-a"] (start Cases.user_editable)).
  destruct (user_editable_rejected (env plain) install_cmd ["pkg-a"]
              (start Cases.user_editable) _ _ _ _ _
              Hg eq_refl eq_refl eq_refl eq_refl eq_refl)
    as (H & _).
  rewrite H. reflexivity.
Defined.

Lemma setuptools_import_failure_witness :
  use_user_site defaults = false
  /\ fst (fst (run Cases.no_setuptools install_cmd ["pkg-a"] (start defaults)))
     = Raise (mk_exn "ImportError" "No module named setuptools").
Proof.
  split; [ reflexivity | ].
  evaluated Hg (gather Cases.no_setuptools ["pkg-a"] (start defaults)).
  destruct (setuptools_import_failure Cases.no_setuptools install_cmd ["pkg-a"]
              (start defaults) _ _ _ _ _ _
              Hg eq_refl eq_refl eq_refl)
    as (H & _).
  rewrite H. reflexivity.
Defined.

Lemma sources_read_in_order_witness :
  filter is_constructor
    (snd (gather (env plain) ["pkg-a"; "pkg-b"] (start Cases.user_editable)))
  = [EvFromLine "pkg-a"; EvFromLine "pkg-b";
     EvFromEditable "git+http://h/repo" "git"; EvParseRequirements "reqs.txt"].
Proof.
  evaluated Hg (gather (env plain) ["pkg-a"; "pkg-b"] (start Cases.user_editable)).
  destruct (sources_read_in_order (env plain) ["pkg-a"; "pkg-b"]
              (start Cases.user_editable) _ _ _ _ Hg)
    as (H & _).
  rewrite Hg. exact H.
Defined.


Lemma soft_exit_leaves_temp_dir_witness :
  truthy (target_dir (with_target "/opt/mylib" defaults)) = true
  /\ fst (fst (run (env plain) install_cmd []
                 (start (with_target "/opt/mylib" defaults)))) = Ok RetNone
  /\ count is_mkdtemp
       (snd (run (env plain) install_cmd []
               (start (with_target "/opt/mylib" defaults)))) = 1
  /\ count is_relocate
       (snd (run (env plain) install_cmd []
               (start (with_target "/opt/mylib" defaults)))) = 0.
Proof.
  split; [ reflexivity | ].
  evaluated Hg (gather (env plain) [] (start (with_target "/opt/mylib" defaults))).
  destruct (soft_exit_leaves_temp_dir (env plain) install_cmd []
              (start (with_target "/opt/mylib" defaults)) _ _ _ _
              eq_refl Hg eq_refl)
    as (H1 & H2 & H3 & _).
  split; [ exact H1 | ]. split; [ exact H2 | exact H3 ].
Defined.

Lemma no_target_no_filesystem_call_witness :
  truthy (target_dir defaults) = false
  /\ count is_filesystem
       (snd (run (env plain) install_cmd ["pkg-a"] (start defaults))) = 0.
Proof.
  split; [ reflexivity | ].
  exact (no_target_no_filesystem_call (env plain) install_cmd ["pkg-a"]
           (start defaults) eq_refl).
Defined.


End Examples.
